(** * ai_commit.py: a commit message from a staged diff

    A shallow embedding of [src/ai_commit.py].  A Python [str] is a
    sequence of Unicode code points, so it is modelled as a list of [N];
    the string methods the script calls ([splitlines], [join], [strip],
    [startswith], [in], slicing, [split], [lower]) are written out with
    the behaviour CPython gives them.  The process environment, the
    subprocesses, the remote model and the file system are answers supplied
    by a [World]; the script's effects are events in a log.

    [main] is first written from the line after [parser.parse_args()] on,
    as a function of the parsed [Args]; [main_from_command_line] is the
    whole of it.  How [argparse] reads the words of the command line is not
    modelled: what [parse_args] makes of them (the parsed values, the help,
    or a rejection) is an answer of the [World].  The encoding defaults put
    into the environment before [main] is called are left out of the runs:
    the environment is taken as [main] finds it. *)

From Stdlib Require Import ZArith NArith List Bool Ascii String Lia.
From stdpp Require Import base option list countable gmap.

Local Open Scope N_scope.

(** ** Python strings *)

Module Py.

Definition char := N.
Definition str := list N.

(** The code points of an ASCII literal. *)
Definition py (s : string) : str := map N_of_ascii (list_ascii_of_string s).

(** The code points of a literal written in UTF-8 (sequences of one to
    four bytes). *)
Fixpoint utf8_decode (bs : list N) : str :=
  match bs with
  | [] => []
  | b :: rest =>
      if b <? 128 then b :: utf8_decode rest
      else if b <? 224 then
        match rest with
        | b2 :: r => ((b - 192) * 64 + (b2 - 128)) :: utf8_decode r
        | _ => []
        end
      else if b <? 240 then
        match rest with
        | b2 :: b3 :: r =>
            ((b - 224) * 4096 + (b2 - 128) * 64 + (b3 - 128)) :: utf8_decode r
        | _ => []
        end
      else
        match rest with
        | b2 :: b3 :: b4 :: r =>
            ((b - 240) * 262144 + (b2 - 128) * 4096 + (b3 - 128) * 64
             + (b4 - 128)) :: utf8_decode r
        | _ => []
        end
  end.

Definition utf8 (s : string) : str := utf8_decode (py s).

(** [len(s)] as a Python integer. *)
Definition len (s : str) : Z := Z.of_nat (length s).

(** Truthiness of a string: [bool(s)]. *)
Definition truthy (s : str) : bool :=
  match s with [] => false | _ :: _ => true end.

(** Line boundaries of [str.splitlines]: LF, VT, FF, CR, FS, GS, RS, NEL,
    LINE SEPARATOR, PARAGRAPH SEPARATOR. *)
Definition is_linebreak (c : char) : bool :=
  (c =? 10) || (c =? 11) || (c =? 12) || (c =? 13) || (c =? 28) ||
  (c =? 29) || (c =? 30) || (c =? 133) || (c =? 8232) || (c =? 8233).

(** Code points for which a one-character string answers [isspace()];
    they are what [strip()] and [split()] without argument remove. *)
Definition isspace (c : char) : bool :=
  ((9 <=? c) && (c <=? 13)) || ((28 <=? c) && (c <=? 32)) ||
  (c =? 133) || (c =? 160) || (c =? 5760) ||
  ((8192 <=? c) && (c <=? 8202)) || (c =? 8232) || (c =? 8233) ||
  (c =? 8239) || (c =? 8287) || (c =? 12288).

(** [s.splitlines()]: the lines without their terminators; CR LF is one
    terminator; a terminator at the very end opens no further line. *)
Fixpoint splitlines (s : str) : list str :=
  match s with
  | [] => []
  | c :: rest =>
      if is_linebreak c then
        match rest with
        | c2 :: rest' =>
            if (c =? 13) && (c2 =? 10) then [] :: splitlines rest'
            else [] :: splitlines rest
        | [] => [[]]
        end
      else
        match splitlines rest with
        | [] => [[c]]
        | l :: ls => (c :: l) :: ls
        end
  end.

(** [sep.join(items)]. *)
Fixpoint join (sep : str) (items : list str) : str :=
  match items with
  | [] => []
  | [x] => x
  | x :: rest => x ++ sep ++ join sep rest
  end.

Fixpoint lstrip_by (p : char -> bool) (s : str) : str :=
  match s with
  | [] => []
  | c :: rest => if p c then lstrip_by p rest else s
  end.

Definition rstrip_by (p : char -> bool) (s : str) : str :=
  rev (lstrip_by p (rev s)).

Definition strip_by (p : char -> bool) (s : str) : str :=
  rstrip_by p (lstrip_by p s).

(** [s.strip()]. *)
Definition strip (s : str) : str := strip_by isspace s.

Definition mem (c : char) (chars : str) : bool := existsb (N.eqb c) chars.

(** [s.strip(chars)]. *)
Definition strip_chars (chars : str) (s : str) : str :=
  strip_by (fun c => mem c chars) s.

(** [s.startswith(p)]. *)
Fixpoint startswith (p s : str) : bool :=
  match p, s with
  | [], _ => true
  | _ :: _, [] => false
  | a :: p', b :: s' => (a =? b) && startswith p' s'
  end.

(** [needle in hay]. *)
Fixpoint contains (needle hay : str) : bool :=
  startswith needle hay ||
  match hay with
  | [] => false
  | _ :: t => contains needle t
  end.

(** [s[:n]]: a negative bound counts from the end. *)
Definition slice_to (n : Z) (s : str) : str :=
  if (0 <=? n)%Z then take (Z.to_nat n) s
  else take (Z.to_nat (len s + n)) s.

(** [s.split()]: the maximal runs of non-whitespace. *)
Fixpoint split_ws (cur : str) (s : str) : list str :=
  match s with
  | [] => match cur with [] => [] | _ => [rev cur] end
  | c :: rest =>
      if isspace c then
        match cur with
        | [] => split_ws [] rest
        | _ => rev cur :: split_ws [] rest
        end
      else split_ws (c :: cur) rest
  end.

Definition split (s : str) : list str := split_ws [] s.

(** Lowering of the ASCII letters. *)
Definition ascii_lower (c : char) : char :=
  if (65 <=? c) && (c <=? 90) then c + 32 else c.

Definition is_ascii (s : str) : Prop := Forall (fun c => c < 128) s.

(** [str.lower] follows the Unicode case tables of the interpreter, which
    are no part of the script: they are an interface, of which only the
    behaviour on ASCII text is fixed here. *)
Class Unicode := {
  lower : str -> str;
  lower_ascii : forall s, is_ascii s -> lower s = map ascii_lower s
}.

End Py.

Import Py.

(** The methods on small inputs, as the interpreter answers them. *)

Example utf8_literal : utf8 "não “x”" = [110; 227; 111; 32; 8220; 120; 8221].
Proof. reflexivity. Qed.

Example splitlines_terminators :
  splitlines (py "a" ++ [13; 10] ++ py "b" ++ [10; 10] ++ py "c" ++ [10])
  = [py "a"; py "b"; []; py "c"].
Proof. reflexivity. Qed.

Example splitlines_form_feed :
  splitlines (py "+x" ++ [12] ++ py "y") = [py "+x"; py "y"].
Proof. reflexivity. Qed.

Example splitlines_only_terminator : splitlines [10] = [[]].
Proof. reflexivity. Qed.

Example join_lines : join [10] [py "a"; []; py "b"] = py "a" ++ [10; 10] ++ py "b".
Proof. reflexivity. Qed.

Example strip_both_ends : strip (py "  a b " ++ [9; 10]) = py "a b".
Proof. reflexivity. Qed.

Example strip_chars_runs : strip_chars [34] ([34; 34] ++ py "a" ++ [34]) = py "a".
Proof. reflexivity. Qed.

Example split_editor : split (py " code  --wait ") = [py "code"; py "--wait"].
Proof. reflexivity. Qed.

Example slice_bounds :
  slice_to 2 (py "abc") = py "ab" /\ slice_to 5 (py "abc") = py "abc"
  /\ slice_to (-1) (py "abc") = py "ab" /\ slice_to (-5) (py "abc") = [].
Proof. repeat split. Qed.

Example contains_inside :
  contains (py "token") (py "+my_token = 1") = true
  /\ contains (py "token") (py "+tok en") = false.
Proof. split; reflexivity. Qed.

(** ** The script *)

(** *** Module constants *)

(** The three-place template, cut at its placeholders: [{lang}],
    [{commit_type}] and [{diff}]. *)
Definition PROMPT_HEAD : str :=
  utf8 "Você é um assistente que escreve mensagens de commit curtas e claras no padrão Conventional Commits."
  ++ [10] ++ py "Responda APENAS com a linha de assunto (sem corpo), no idioma: ".

Definition PROMPT_MID : str :=
  py "." ++ [10] ++ utf8 "Preferências:" ++ [10] ++ py "- Tipo: ".

Definition PROMPT_RULES : str :=
  py " (feat, fix, chore, refactor, docs, test, perf, build, ci, style)" ++ [10]
  ++ utf8 "- Máximo ~72 caracteres." ++ [10]
  ++ utf8 "- Descreva a mudança, não o arquivo; verbo no imperativo (ex.: "
  ++ [34] ++ py "add" ++ [34] ++ py ", " ++ [34] ++ py "fix" ++ [34]
  ++ py ", " ++ [34] ++ py "update" ++ [34] ++ py ")." ++ [10]
  ++ py "- Inclua escopo quando fizer sentido (ex.: feat(user): ...)." ++ [10]
  ++ utf8 "- NÃO inclua ponto final." ++ [10]
  ++ [10]
  ++ utf8 "Se a mudança for mista, escolha o tipo predominante; se incerto, use "
  ++ [34] ++ py "chore" ++ [34] ++ py "." ++ [10]
  ++ [10]
  ++ utf8 "A seguir está o git diff (unificado, sem cores). Gere UMA linha:" ++ [10]
  ++ [10].

Definition DIFF_OPEN : str := py "<diff>".
Definition DIFF_CLOSE : str := py "</diff>".

(** [PROMPT_TEMPLATE.format(lang=..., commit_type=..., diff=...)]. *)
Definition PROMPT_TEMPLATE_format (lang commit_type diff : str) : str :=
  PROMPT_HEAD ++ lang ++ PROMPT_MID ++ commit_type ++ PROMPT_RULES
  ++ DIFF_OPEN ++ [10] ++ diff ++ [10] ++ DIFF_CLOSE ++ [10].

(** *** strip_sensitive_lines *)

Section Sanitize.
Context `{Unicode}.

(** The first test of the loop body, on a line and its lowered form. *)
Definition secret_added (line : str) : bool :=
  let low := lower line in
  (contains (py "api_key") low || contains (py "apikey") low
   || contains (py "secret") low || contains (py "token") low)
  && startswith (py "+") line.

(** The second test of the loop body. *)
Definition env_header (line : str) : bool :=
  let low := lower line in
  contains (py ".env") low
  && (startswith (py "+++") line || startswith (py "---") line).

(** One turn of the loop: [continue] leaves [filtered] as it is. *)
Definition sanitize_step (filtered : list str) (line : str) : list str :=
  if secret_added line then filtered
  else if env_header line then filtered
  else filtered ++ [line].

Definition strip_sensitive_lines (diff : str) : str :=
  let filtered := fold_left sanitize_step (splitlines diff) [] in
  join [10] filtered.

End Sanitize.

(** *** The cap of [main]: [if len(diff) > MAX_DIFF_CHARS: ...] *)

Definition cap (max_chars : Z) (diff : str) : str * bool :=
  if (len diff >? max_chars)%Z then (slice_to max_chars diff, true)
  else (diff, false).

(** *** The normalisation of the model's text in [main]

    The suffix is appended when the diff was cut; then the lines are joined
    with one space, the result is stripped of white space, then of double
    quotes (code point 34), then of single quotes (code point 39). *)

Definition post_process (truncated : bool) (message : str) : str :=
  let message :=
    if truncated then message ++ py " (truncated diff)" else message in
  strip_chars [39] (strip_chars [34] (strip (join [32] (splitlines message)))).

(** The normalisation of the edited message: lines joined with one space,
    then [strip()]. *)
Definition one_line (final_msg : str) : str :=
  strip (join [32] (splitlines final_msg)).

(** *** Processes, exceptions, responses *)

(** What [subprocess.run] returns. *)
Record CompletedProcess := {
  returncode : Z;
  stdout : str;
  stderr : str
}.

(** The exceptions the script meets, each with its [str(e)];
    [CalledProcessError] also carries [e.stderr]. *)
Inductive exn :=
| CalledProcessError (what : str) (err : str)
| OSError (what : str)
| RuntimeError (what : str)
| OtherException (what : str).

Definition exn_str (e : exn) : str :=
  match e with
  | CalledProcessError what _ => what
  | OSError what => what
  | RuntimeError what => what
  | OtherException what => what
  end.

Definition is_CalledProcessError (e : exn) : bool :=
  match e with CalledProcessError _ _ => true | _ => false end.

Definition is_OSError (e : exn) : bool :=
  match e with OSError _ => true | _ => false end.

(** A part of a candidate's content: a dict, with or without the key
    [text], or something that is no dict. *)
Inductive Part :=
| PartDict (text : option str)
| PartOther.

(** [content]: a dict, with or without the key [parts]. *)
Record Content := { parts : option (list Part) }.

(** A candidate; [None] stands for an attribute [content] that is missing
    or falsy. *)
Record Candidate := { content : option Content }.

(** [prompt_feedback]; [block_reason] is [None] when the attribute is
    missing, and else the text the f-string renders for it. *)
Record Feedback := { block_reason : option str }.

(** The result of [generate_content], as far as the script looks at it:
    [candidates] is [None] without the attribute, [prompt_feedback] is
    [None] when missing or falsy, [resp_text] when missing or [None]. *)
Record Response := {
  candidates : option (list Candidate);
  prompt_feedback : option Feedback;
  resp_text : option str
}.

(** The result of starting a program: it ran, leaving the files as given,
    or it could not be started ([OSError]). *)
Inductive spawn_result :=
| Spawned (p : CompletedProcess) (files : gmap str str)
| SpawnFailed (what : str).

(** The command line, as [argparse] hands it over. *)
Record Args := {
  unstaged : bool;
  ctype : str;
  lang : str;
  no_edit : bool;
  model : str;
  print_only : bool
}.

(** What [parser.parse_args()] does with the command line: it returns the
    parsed values; or, asked for help, writes the help to the standard
    output and leaves with status 0; or, on a command line it rejects,
    writes the usage and then its message to the error stream and leaves
    with status 2.  The texts are those written, less their final LF. *)
Inductive parsed :=
| Parsed (args : Args)
| Help (text : str)
| Rejected (usage message : str).

(** Everything outside the script.  A file's value in [gmap str str] is the
    text that reading it returns. *)
Record World := {
  (** [os.environ] as [main] finds it *)
  environ : gmap str str;
  (** [int(os.getenv("AICOMMIT_MAX_DIFF_CHARS", "40000"))], read at import *)
  MAX_DIFF_CHARS : Z;
  (** what [parser.parse_args()] makes of [sys.argv] *)
  parse_args : parsed;
  (** [subprocess.run] of an argument list, in an environment, on the files *)
  subprocess_run : gmap str str -> list str -> gmap str str -> spawn_result;
  (** [str(e)] of the [CalledProcessError] for a command and its status *)
  called_process_msg : list str -> Z -> str;
  (** the text of [pathlib.Path(s)]: the path in the normal form of the
      platform *)
  Path : str -> str;
  (** [os.chdir]: the [OSError] it raises, if any *)
  chdir_error : str -> option str;
  (** import, [configure], [GenerativeModel] and [generate_content], for a
      key, a model name and a prompt *)
  generate_content : str -> str -> str -> exn + Response;
  (** the name [NamedTemporaryFile] picks *)
  mktemp : gmap str str -> str;
  (** [os.remove] of an existing file: the [OSError] it raises, if any *)
  remove_error : str -> option str
}.

(** [os.getenv(k)]. *)
Definition getenv (w : World) (k : str) : option str := environ w !! k.

(** [DEFAULT_MODEL = os.getenv("GEMINI_MODEL", "gemini-1.5-flash")]. *)
Definition DEFAULT_MODEL (w : World) : str :=
  default (py "gemini-1.5-flash") (getenv w (py "GEMINI_MODEL")).

(** [d.setdefault(k, v)] on a copy. *)
Definition setdefault (k v : str) (d : gmap str str) : gmap str str :=
  match d !! k with
  | Some _ => d
  | None => <[k := v]> d
  end.

(** *** Effects *)

(** What the script does to the outside: [Subprocess] is a command started
    through [run], [Editor] the editor started by [editor_edit]. *)
Inductive event :=
| Subprocess (argv : list str)
| Editor (argv : list str)
| Chdir (path : str)
| Stdout (text : str)
| Stderr (text : str)
| Generate (model prompt : str)
| TempFile (path text : str)
| Remove (path : str).

(** The files, and what the script did so far, latest first. *)
Record state := {
  files : gmap str str;
  log : list event
}.

Inductive outcome (A : Type) :=
| Ret (a : A)
| Raise (e : exn)
| SysExit (code : Z).
Arguments Ret {A} a.
Arguments Raise {A} e.
Arguments SysExit {A} code.

(** The status the interpreter ends with: an uncaught exception gives 1. *)
Definition exit_status {A} (o : outcome A) : Z :=
  match o with
  | Ret _ => 0
  | Raise _ => 1
  | SysExit code => code
  end.

Definition M (A : Type) : Type := state -> outcome A * state.

Definition ret {A} (a : A) : M A := fun st => (Ret a, st).

Definition bind {A B} (m : M A) (k : A -> M B) : M B :=
  fun st =>
    match m st with
    | (Ret a, st') => k a st'
    | (Raise e, st') => (Raise e, st')
    | (SysExit c, st') => (SysExit c, st')
    end.

Notation "x <- m ;; k" := (bind m (fun x => k))
  (at level 100, m at next level, right associativity).
Notation "m ;; k" := (bind m (fun _ => k))
  (at level 100, right associativity).

Definition raise {A} (e : exn) : M A := fun st => (Raise e, st).

(** [sys.exit(code)]: [SystemExit] is no [Exception], no handler of the
    script catches it. *)
Definition sys_exit {A} (code : Z) : M A := fun st => (SysExit code, st).

Definition emit (e : event) : M unit :=
  fun st => (Ret tt, {| files := files st; log := e :: log st |}).

Definition get_files : M (gmap str str) := fun st => (Ret (files st), st).

Definition put_files (f : gmap str str) : M unit :=
  fun st => (Ret tt, {| files := f; log := log st |}).

(** [try: body / except E as e: handler e]. *)
Definition try_except {A} (body : M A) (catches : exn -> bool)
    (handler : exn -> M A) : M A :=
  fun st =>
    match body st with
    | (Raise e, st') => if catches e then handler e st' else (Raise e, st')
    | r => r
    end.

(** [try: body / finally: final]. *)
Definition try_finally {A} (body : M A) (final : M unit) : M A :=
  fun st =>
    match body st with
    | (r, st') =>
        match final st' with
        | (Ret _, st'') => (r, st'')
        | (Raise e, st'') => (Raise e, st'')
        | (SysExit c, st'') => (SysExit c, st'')
        end
    end.

Definition print (text : str) : M unit := emit (Stdout text).
Definition print_err (text : str) : M unit := emit (Stderr text).

(** A run of the script from a given set of files. *)
Definition start (f : gmap str str) : state := {| files := f; log := [] |}.

(** *** The functions of the script *)

Section Script.
Context `{Unicode}.
Variable w : World.

(** [run(cmd, check=...)]: the command runs in a copy of the environment
    with three defaults; with [check], a status other than 0 raises. *)
Definition run (cmd : list str) (check : bool) : M CompletedProcess :=
  let env :=
    setdefault (py "LC_ALL") (py "C.UTF-8")
      (setdefault (py "LANG") (py "C.UTF-8")
         (setdefault (py "GIT_PAGER") (py "cat") (environ w))) in
  emit (Subprocess cmd) ;;
  f <- get_files ;;
  match subprocess_run w env cmd f with
  | SpawnFailed what => raise (OSError what)
  | Spawned p f' =>
      put_files f' ;;
      if check && negb (returncode p =? 0)%Z
      then raise (CalledProcessError
                    (called_process_msg w cmd (returncode p)) (stderr p))
      else ret p
  end.

(** [get_repo_root()]: the [Path] it returns is kept as its text. *)
Definition get_repo_root : M str :=
  try_except
    (out <- run [py "git"; py "rev-parse"; py "--show-toplevel"] true ;;
     ret (Path w (strip (stdout out))))
    is_CalledProcessError
    (fun _ => print_err (utf8 " Não é um repositório git.") ;; sys_exit 1%Z).

Definition chdir (path : str) : M unit :=
  emit (Chdir path) ;;
  match chdir_error w path with
  | Some what => raise (OSError what)
  | None => ret tt
  end.

Definition get_diff (staged : bool) : M str :=
  let args :=
    if staged
    then [py "git"; py "diff"; py "--staged"; py "--no-color";
          py "--unified=0"; py "--no-ext-diff"; py "--text"]
    else [py "git"; py "diff"; py "--no-color";
          py "--unified=0"; py "--no-ext-diff"; py "--text"] in
  try_except
    (out <- run args true ;; ret (stdout out))
    is_CalledProcessError
    (fun e =>
       match e with
       | CalledProcessError _ err => print_err err ;; sys_exit 1%Z
       | _ => raise e
       end).

(** [os.remove(path)]. *)
Definition os_remove (path : str) : M unit :=
  emit (Remove path) ;;
  f <- get_files ;;
  match f !! path with
  | None => raise (OSError (py "No such file or directory"))
  | Some _ =>
      match remove_error w path with
      | Some what => raise (OSError what)
      | None => put_files (delete path f)
      end
  end.

(** [os.getenv("EDITOR") or os.getenv("VISUAL")]. *)
Definition editor_setting : option str :=
  match getenv w (py "EDITOR") with
  | Some e => if truthy e then Some e else getenv w (py "VISUAL")
  | None => getenv w (py "VISUAL")
  end.

Definition editor_edit (initial_text : str) : M str :=
  match editor_setting with
  | None => ret initial_text
  | Some [] => ret initial_text
  | Some editor =>
      (* with tempfile.NamedTemporaryFile(...) as tf: write, flush *)
      f <- get_files ;;
      let path := mktemp w f in
      emit (TempFile path initial_text) ;;
      put_files (<[path := initial_text]> f) ;;
      try_finally
        ((* subprocess.run([*editor.split(), path], check=False) *)
         emit (Editor (split editor ++ [path])) ;;
         f1 <- get_files ;;
         match subprocess_run w (environ w) (split editor ++ [path]) f1 with
         | SpawnFailed what => raise (OSError what)
         | Spawned _ f2 =>
             put_files f2 ;;
             (* with open(path, ...) as f: return (f.read() or "").strip() *)
             match f2 !! path with
             | None => raise (OSError (py "No such file or directory"))
             | Some text => ret (strip text)
             end
         end)
        (try_except (os_remove path) is_OSError (fun _ => ret tt))
  end.

Definition ensure_gemini_key : M unit :=
  match getenv w (py "GOOGLE_API_KEY") with
  | Some (_ :: _) => ret tt
  | _ =>
      print_err (py " Defina GOOGLE_API_KEY no .env ou no ambiente.") ;;
      sys_exit 1%Z
  end.

(** The texts of the dict parts of one candidate. *)
Definition candidate_texts (cand : Candidate) : list str :=
  let content := default {| parts := None |} (content cand) in
  flat_map
    (fun part => match part with PartDict (Some t) => [t] | _ => [] end)
    (default [] (parts content)).

Definition call_gemini (model_name prompt : str) : M str :=
  match getenv w (py "GOOGLE_API_KEY") with
  | None => raise (OtherException (py "'GOOGLE_API_KEY'"))
  | Some key =>
      emit (Generate model_name prompt) ;;
      match generate_content w key model_name prompt with
      | inl e => raise e
      | inr resp =>
          match candidates resp with
          | None | Some [] =>
              let reason :=
                match prompt_feedback resp with
                | Some fb => default (py "unknown") (block_reason fb)
                | None => py "unknown"
                end in
              raise (RuntimeError
                       (utf8 "Resposta bloqueada pelo modelo (razão: "
                        ++ reason ++ py "). Ajuste o diff/prompt."))
          | Some cands =>
              let text :=
                match resp_text resp with
                | Some (c :: t) => c :: t
                | _ => strip (join [10] (flat_map candidate_texts cands))
                end in
              if truthy text then ret (strip text)
              else raise (RuntimeError (py "Resposta do Gemini vazia."))
          end
      end
  end.

(** The values without any flag given. *)
Definition default_args : Args := {|
  unstaged := false;
  ctype := py "chore";
  lang := py "pt-BR";
  no_edit := false;
  model := DEFAULT_MODEL w;
  print_only := false
|}.

Definition commit_command (final_msg : str) : list str :=
  [py "git"; py "commit"; py "-m"; final_msg].

(** [main] is long; it is written here in parts that follow one another:
    from the line after [parser.parse_args()] up to the retrieval of the
    diff, from there to the final message, and the delivery of that
    message; these three make [main] for given [args]; the parsing of the
    command line comes before them in [main_from_command_line]. *)

(** [main], from [repo = get_repo_root()] to [diff = get_diff(...)]. *)
Definition retrieve_diff (args : Args) : M str :=
  repo <- get_repo_root ;;
  chdir repo ;;
  (if negb (unstaged args) then
     staged <- run [py "git"; py "diff"; py "--name-only"; py "--staged"]
                   true ;;
     if negb (truthy (strip (stdout staged)))
     then print (py "Nenhum arquivo staged. Dica: git add -A  (ou use --unstaged).")
     else ret tt
   else ret tt) ;;
  get_diff (negb (unstaged args)).

(** [main], from the test of the diff to the test of the final message. *)
Definition final_message (args : Args) (diff : str) : M str :=
  if negb (truthy (strip diff)) then
    print_err (py " Diff vazio. Nada para descrever.") ;; sys_exit 1%Z
  else
    let diff := strip_sensitive_lines diff in
    let '(diff, truncated) := cap (MAX_DIFF_CHARS w) diff in
    let prompt := PROMPT_TEMPLATE_format (lang args) (ctype args) diff in
    ensure_gemini_key ;;
    message <-
      try_except (call_gemini (model args) prompt) (fun _ => true)
        (fun e =>
           print_err (py " Erro chamando Gemini: " ++ exn_str e) ;;
           sys_exit 1%Z) ;;
    let message := post_process truncated message in
    print (10 :: py "--- Mensagem sugerida ---") ;;
    print message ;;
    print (py "-------------------------" ++ [10]) ;;
    final_msg <- (if no_edit args then ret message
                  else editor_edit message) ;;
    let final_msg := one_line final_msg in
    if negb (truthy final_msg) then
      print_err (utf8 " Mensagem vazia após edição.") ;; sys_exit 1%Z
    else ret final_msg.

(** [main], from [if args.print_only] to its end. *)
Definition deliver (args : Args) (final_msg : str) : M unit :=
  if print_only args then
    print final_msg
  else
    try_except
      (run (commit_command final_msg) true ;;
       print (py " Commit feito: " ++ final_msg))
      is_CalledProcessError
      (fun e =>
         match e with
         | CalledProcessError _ err =>
             print_err (utf8 "Falha ao commitar. Faça git add.") ;;
             print_err err ;;
             sys_exit 1%Z
         | _ => raise e
         end).

Definition main (args : Args) : M unit :=
  diff <- retrieve_diff args ;;
  final_msg <- final_message args diff ;;
  deliver args final_msg.

(** [args = parser.parse_args()], the first thing [main] does. *)
Definition parse_command_line : M Args :=
  match parse_args w with
  | Parsed args => ret args
  | Help text => print text ;; sys_exit 0%Z
  | Rejected usage message =>
      print_err usage ;; print_err message ;; sys_exit 2%Z
  end.

(** The whole of [main]: the command line is parsed, then the rest runs on
    the parsed values. *)
Definition main_from_command_line : M unit :=
  args <- parse_command_line ;;
  main args.

End Script.

(** ** Facts about the string methods *)

Section StringFacts.

Definition no_break (s : str) : Prop :=
  Forall (fun c => is_linebreak c = false) s.

(** The first, and the last, code point of [s] satisfies [p]. *)
Definition starts_by (p : char -> bool) (s : str) : bool :=
  match s with
  | [] => false
  | c :: _ => p c
  end.

Definition ends_by (p : char -> bool) (s : str) : bool :=
  starts_by p (rev s).

Lemma splitlines_break_free_prefix (l s : str) :
  no_break l -> splitlines (l ++ 10 :: s) = l :: splitlines s.
Proof.
  induction 1 as [|c l Hc _ IH]; simpl.
  - destruct s as [|c2 s2]; reflexivity.
  - rewrite Hc, IH. reflexivity.
Qed.

Lemma splitlines_single (l : str) :
  no_break l -> l <> [] -> splitlines l = [l].
Proof.
  induction 1 as [|c l Hc Hl IH]; intros Hne; [now contradiction Hne|].
  simpl. rewrite Hc. destruct l as [|c' l'].
  - reflexivity.
  - rewrite IH by discriminate. reflexivity.
Qed.

(** Joining lines with LF and splitting again gives the lines back, unless
    the last one is empty. *)
Lemma splitlines_join (ls : list str) :
  Forall no_break ls -> last ls <> Some [] ->
  splitlines (join [10] ls) = ls.
Proof.
  induction 1 as [|l ls Hl Hls IH]; intros Hlast; [reflexivity|].
  destruct ls as [|l2 ls2].
  - simpl. apply splitlines_single; [assumption|].
    intros ->. apply Hlast. reflexivity.
  - change (join [10] (l :: l2 :: ls2))
      with (l ++ 10 :: join [10] (l2 :: ls2)).
    rewrite splitlines_break_free_prefix by assumption.
    f_equal. apply IH. exact Hlast.
Qed.

(** No line of [splitlines] holds a line boundary. *)
Lemma splitlines_no_break (s : str) : Forall no_break (splitlines s).
Proof.
  assert (Hboth : Forall no_break (splitlines s)
                  /\ forall c, Forall no_break (splitlines (c :: s))).
  { induction s as [|c2 s IH].
    - split; [constructor|]. intros c. simpl.
      destruct (is_linebreak c) eqn:Hc; repeat constructor. exact Hc.
    - destruct IH as [IH1 IH2]. split; [apply IH2|].
      intros c. specialize (IH2 c2).
      change (splitlines (c :: c2 :: s)) with
        (if is_linebreak c then
           if (c =? 13) && (c2 =? 10) then [] :: splitlines s
           else [] :: splitlines (c2 :: s)
         else match splitlines (c2 :: s) with
              | [] => [[c]]
              | l :: ls => (c :: l) :: ls
              end).
      destruct (is_linebreak c) eqn:Hc.
      + destruct ((c =? 13) && (c2 =? 10)); constructor;
          solve [constructor | assumption].
      + destruct (splitlines (c2 :: s)) as [|l ls].
        * repeat constructor. exact Hc.
        * inversion IH2; subst. constructor; [|assumption].
          constructor; assumption. }
  apply Hboth.
Qed.

Lemma no_break_join_space (ls : list str) :
  Forall no_break ls -> no_break (join [32] ls).
Proof.
  induction 1 as [|l ls Hl Hls IH]; [constructor|].
  destruct ls as [|l2 ls2]; [exact Hl|].
  change (join [32] (l :: l2 :: ls2)) with (l ++ 32 :: join [32] (l2 :: ls2)).
  apply Forall_app. split; [exact Hl|]. constructor; [reflexivity|exact IH].
Qed.

(** A text without line boundary is its own single line. *)
Lemma join_splitlines_no_break (s : str) :
  no_break s -> join [32] (splitlines s) = s.
Proof.
  intros Hs. destruct s as [|c s]; [reflexivity|].
  rewrite splitlines_single by (assumption || discriminate). reflexivity.
Qed.

(** *** Stripping *)

Lemma lstrip_by_suffix (p : char -> bool) (s : str) :
  exists pre, s = pre ++ lstrip_by p s /\ forallb p pre = true.
Proof.
  induction s as [|c s [pre [IH1 IH2]]]; simpl.
  - exists []. split; reflexivity.
  - destruct (p c) eqn:Hc.
    + exists (c :: pre). simpl. rewrite Hc, IH2. split; [|reflexivity].
      f_equal. exact IH1.
    + exists []. split; reflexivity.
Qed.

Lemma lstrip_by_Forall (P : char -> Prop) (p : char -> bool) (s : str) :
  Forall P s -> Forall P (lstrip_by p s).
Proof.
  intros Hs. destruct (lstrip_by_suffix p s) as [pre [Heq _]].
  rewrite Heq in Hs. apply Forall_app in Hs. apply Hs.
Qed.

Lemma strip_by_Forall (P : char -> Prop) (p : char -> bool) (s : str) :
  Forall P s -> Forall P (strip_by p s).
Proof.
  intros Hs. unfold strip_by, rstrip_by.
  apply Forall_rev, lstrip_by_Forall, Forall_rev, lstrip_by_Forall.
  exact Hs.
Qed.

Lemma lstrip_by_id (p : char -> bool) (s : str) :
  starts_by p s = false -> lstrip_by p s = s.
Proof.
  destruct s as [|c s]; simpl; [reflexivity|]. intros ->. reflexivity.
Qed.

Lemma rstrip_by_id (p : char -> bool) (s : str) :
  ends_by p s = false -> rstrip_by p s = s.
Proof.
  unfold ends_by, rstrip_by. intros Hs.
  rewrite lstrip_by_id by assumption. apply rev_involutive.
Qed.

Lemma strip_by_id (p : char -> bool) (s : str) :
  starts_by p s = false -> ends_by p s = false -> strip_by p s = s.
Proof.
  intros H1 H2. unfold strip_by.
  rewrite lstrip_by_id by assumption. apply rstrip_by_id. assumption.
Qed.

Lemma lstrip_by_starts (p : char -> bool) (s : str) :
  starts_by p (lstrip_by p s) = false.
Proof.
  induction s as [|c s IH]; simpl; [reflexivity|].
  destruct (p c) eqn:Hc; [exact IH|]. simpl. exact Hc.
Qed.

Lemma rstrip_by_ends (p : char -> bool) (s : str) :
  ends_by p (rstrip_by p s) = false.
Proof.
  unfold ends_by, rstrip_by. rewrite rev_involutive. apply lstrip_by_starts.
Qed.

(** Stripping at the end leaves the first code point a stripped text has. *)
Lemma rstrip_by_starts (p : char -> bool) (s : str) :
  starts_by p s = false -> starts_by p (rstrip_by p s) = false.
Proof.
  intros Hs. destruct (starts_by p (rstrip_by p s)) eqn:Hr; [|reflexivity].
  unfold rstrip_by in Hr.
  destruct (lstrip_by_suffix p (rev s)) as [pre [Heq _]].
  assert (Hs' : s = rev (lstrip_by p (rev s)) ++ rev pre).
  { rewrite <- rev_app_distr, <- Heq, rev_involutive. reflexivity. }
  destruct (rev (lstrip_by p (rev s))) as [|c r]; [discriminate|].
  rewrite Hs' in Hs. simpl in Hs, Hr. congruence.
Qed.

Lemma strip_by_starts (p : char -> bool) (s : str) :
  starts_by p (strip_by p s) = false.
Proof. apply rstrip_by_starts, lstrip_by_starts. Qed.

Lemma strip_by_ends (p : char -> bool) (s : str) :
  ends_by p (strip_by p s) = false.
Proof. apply rstrip_by_ends. Qed.

Lemma strip_by_idem (p : char -> bool) (s : str) :
  strip_by p (strip_by p s) = strip_by p s.
Proof. apply strip_by_id; [apply strip_by_starts | apply strip_by_ends]. Qed.

(** *** Searching *)

Lemma startswith_cons (a : char) (p s : str) :
  startswith (a :: p) s = true ->
  exists s', s = a :: s' /\ startswith p s' = true.
Proof.
  destruct s as [|c s]; [discriminate|].
  change (startswith (a :: p) (c :: s)) with ((a =? c) && startswith p s).
  intros Hs. apply andb_true_iff in Hs. destruct Hs as [Hc Hs].
  apply N.eqb_eq in Hc. subst c. exists s. split; [reflexivity|exact Hs].
Qed.

Lemma startswith_app (p s : str) : startswith p (p ++ s) = true.
Proof.
  induction p as [|c p IH]; [reflexivity|].
  simpl. rewrite N.eqb_refl. exact IH.
Qed.

Lemma contains_app (needle pre post : str) :
  contains needle (pre ++ needle ++ post) = true.
Proof.
  induction pre as [|c pre IH].
  - simpl. destruct (needle ++ post) eqn:E; simpl;
      rewrite <- E, startswith_app; reflexivity.
  - simpl. rewrite IH. apply orb_true_r.
Qed.

End StringFacts.

(** ** strip_sensitive_lines is a filter on the lines *)

(** Replaces [splitlines] of a literal by its lines. *)
Ltac eval_splitlines :=
  match goal with
  | |- context [splitlines ?d] =>
      let v := eval vm_compute in (splitlines d) in
      change (splitlines d) with v
  end.

Section SanitizeFacts.
Context `{Unicode}.

(** The secret-like keywords of the first test. *)
Definition keywords : list str :=
  [py "api_key"; py "apikey"; py "secret"; py "token"].

(** A line that one of the two tests rejects. *)
Definition dropped (line : str) : bool := secret_added line || env_header line.

Lemma keyword_secret_added (kw line : str) :
  In kw keywords -> contains kw (lower line) = true ->
  startswith (py "+") line = true -> secret_added line = true.
Proof.
  intros Hkw Hc Hp. unfold secret_added. rewrite Hp, andb_true_r.
  simpl in Hkw.
  destruct Hkw as [<-|[<-|[<-|[<-|[]]]]]; rewrite Hc;
    rewrite ?orb_true_r; reflexivity.
Qed.

Lemma sanitize_step_dropped (filtered : list str) (line : str) :
  sanitize_step filtered line
  = if dropped line then filtered else filtered ++ [line].
Proof.
  unfold sanitize_step, dropped.
  destruct (secret_added line), (env_header line); reflexivity.
Qed.

(** The loop, one line at a time, is [filter]. *)
Lemma sanitize_loop (lines acc : list str) :
  fold_left sanitize_step lines acc
  = acc ++ filter (fun l => dropped l = false) lines.
Proof.
  revert acc. induction lines as [|l lines IH]; intros acc; simpl.
  - symmetry. apply app_nil_r.
  - rewrite IH, sanitize_step_dropped. rewrite filter_cons.
    destruct (dropped l); simpl.
    + destruct (decide (true = false)) as [?|_]; [discriminate|]. reflexivity.
    + destruct (decide (false = false)) as [_|?]; [|congruence].
      rewrite <- app_assoc. reflexivity.
Qed.

Lemma strip_sensitive_lines_filter (diff : str) :
  strip_sensitive_lines diff
  = join [10] (filter (fun l => dropped l = false) (splitlines diff)).
Proof. unfold strip_sensitive_lines. rewrite sanitize_loop. reflexivity. Qed.

(** On a diff given as lines joined with LF, the function works on just
    these lines. *)
Lemma strip_sensitive_lines_join (lines : list str) :
  Forall no_break lines -> last lines <> Some [] ->
  strip_sensitive_lines (join [10] lines)
  = join [10] (filter (fun l => dropped l = false) lines).
Proof.
  intros Hnb Hlast. rewrite strip_sensitive_lines_filter.
  rewrite splitlines_join by assumption. reflexivity.
Qed.

(** For every diff, [strip_sensitive_lines] filters the lines that
    [splitlines] finds, each on its own: the result is the kept lines joined
    with LF; the kept lines are the lines of the diff with some left out, in
    their order and unchanged; an added line (one starting with [+]) whose
    lowered text contains [api_key], [apikey], [secret] or [token] is not
    among them; a line that neither test rejects is; leaving out such an
    added line changes nothing about the lines before and after it; and the
    lines of the result are the kept lines again, unless the last kept line
    is empty (LF joins, it does not end, the lines). *)
Theorem strip_sensitive_lines_line_filter (diff : str) :
  let lines := splitlines diff in
  let kept := filter (fun l => dropped l = false) lines in
  strip_sensitive_lines diff = join [10] kept
  /\ sublist kept lines
  /\ (forall kw line,
        In kw keywords -> contains kw (lower line) = true ->
        startswith (py "+") line = true -> ~ In line kept)
  /\ (forall line,
        In line lines -> secret_added line = false ->
        env_header line = false -> In line kept)
  /\ (forall kw before line after,
        lines = before ++ line :: after ->
        In kw keywords -> contains kw (lower line) = true ->
        startswith (py "+") line = true ->
        kept = filter (fun l => dropped l = false) before
               ++ filter (fun l => dropped l = false) after)
  /\ (last kept <> Some [] ->
      splitlines (strip_sensitive_lines diff) = kept).
Proof.
  intros lines kept. split; [apply strip_sensitive_lines_filter|].
  split; [apply sublist_filter|]. split; [|split; [|split]].
  - intros kw line Hkw Hc Hp Hin.
    apply list_elem_of_In, list_elem_of_filter in Hin.
    destruct Hin as [Hd _]. unfold dropped in Hd.
    rewrite (keyword_secret_added kw line Hkw Hc Hp) in Hd. discriminate.
  - intros line Hin Hs He.
    apply list_elem_of_In, list_elem_of_filter. split.
    + unfold dropped. rewrite Hs, He. reflexivity.
    + apply list_elem_of_In. exact Hin.
  - intros kw before line after Hlines Hkw Hc Hp. unfold kept.
    rewrite Hlines, filter_app, filter_cons.
    destruct (decide (dropped line = false)) as [Hd|_]; [|reflexivity].
    unfold dropped in Hd.
    rewrite (keyword_secret_added kw line Hkw Hc Hp) in Hd. discriminate.
  - intros Hlast. rewrite strip_sensitive_lines_filter.
    apply splitlines_join; [|exact Hlast].
    apply Forall_forall. intros l Hl. apply list_elem_of_filter in Hl.
    destruct Hl as [_ Hl]. revert l Hl. apply Forall_forall.
    apply splitlines_no_break.
Qed.

(** A diff as git writes it: every line ended by LF. *)
Definition unlines (lines : list str) : str :=
  flat_map (fun l => l ++ [10]) lines.

Lemma splitlines_unlines (lines : list str) :
  Forall no_break lines -> splitlines (unlines lines) = lines.
Proof.
  induction 1 as [|l lines Hl _ IH]; [reflexivity|].
  change (unlines (l :: lines)) with ((l ++ [10]) ++ unlines lines).
  rewrite <- app_assoc.
  change ([10] ++ unlines lines) with (10 :: unlines lines).
  rewrite splitlines_break_free_prefix by exact Hl. rewrite IH. reflexivity.
Qed.








(** C10.  A line starting with [+++] starts with [+]: when its lowered text
    contains one of the keywords the loop leaves it out under the first
    test, header or not.  A line starting with [---] never meets the first
    test: it is appended unless its lowered text contains [.env].  So of the
    two headers of [token_store.py] only the [---] one stays. *)
Theorem plus_header_dropped_minus_header_kept :
  (forall kw line filtered,
     In kw keywords -> contains kw (lower line) = true ->
     startswith (py "+++") line = true ->
     secret_added line = true /\ sanitize_step filtered line = filtered)
  /\ (forall line filtered,
        startswith (py "---") line = true ->
        secret_added line = false
        /\ sanitize_step filtered line
           = if contains (py ".env") (lower line) then filtered
             else filtered ++ [line])
  /\ strip_sensitive_lines
       (py "--- a/token_store.py" ++ [10] ++ py "+++ b/token_store.py"
        ++ [10] ++ py "@@ -1 +1 @@" ++ [10] ++ py "-x = 1" ++ [10]
        ++ py "+x = 2" ++ [10])
     = py "--- a/token_store.py" ++ [10] ++ py "@@ -1 +1 @@" ++ [10]
       ++ py "-x = 1" ++ [10] ++ py "+x = 2".
Proof.
  split; [|split].
  - intros kw line filtered Hkw Hc Hp.
    assert (Hplus : startswith (py "+") line = true).
    { change (py "+++") with (43 :: py "++") in Hp.
      apply startswith_cons in Hp. destruct Hp as [s' [-> _]].
      reflexivity. }
    pose proof (keyword_secret_added kw line Hkw Hc Hplus) as Hs.
    split; [exact Hs|]. unfold sanitize_step. rewrite Hs. reflexivity.
  - intros line filtered Hm.
    assert (Hplus : startswith (py "+") line = false).
    { pose proof Hm as Hm'. change (py "---") with (45 :: py "--") in Hm'.
      apply startswith_cons in Hm'. destruct Hm' as [s' [-> _]].
      reflexivity. }
    assert (Hs : secret_added line = false).
    { unfold secret_added. rewrite Hplus. apply andb_false_r. }
    split; [exact Hs|]. unfold sanitize_step, env_header.
    rewrite Hs, Hm, orb_true_r, andb_true_r. reflexivity.
  - unfold strip_sensitive_lines. eval_splitlines. cbn [fold_left].
    unfold sanitize_step, secret_added, env_header.
    rewrite !lower_ascii by (repeat constructor).
    vm_compute. reflexivity.
Qed.

End SanitizeFacts.

(** ** The cap *)

(** A maximum below zero is accepted by [int()], and the slice then counts
    from the end: the result is one short of the diff, not [-1] long. *)
Lemma cap_negative_max :
  (len (py "ab") > -1)%Z
  /\ cap (-1) (py "ab") = (py "a", true)
  /\ len (fst (cap (-1) (py "ab"))) <> (-1)%Z.
Proof. vm_compute. repeat split; discriminate. Qed.

(** C2, amended.  With a maximum that is not negative: a diff longer than
    the maximum is cut to its first [max_chars] code points, so to that
    length, and the flag is set; a diff within the maximum is returned as it
    is with the flag unset. *)
Theorem cap_nonnegative_max (max_chars : Z) (diff : str) :
  (0 <= max_chars)%Z ->
  ((len diff > max_chars)%Z ->
     len (fst (cap max_chars diff)) = max_chars
     /\ snd (cap max_chars diff) = true
     /\ fst (cap max_chars diff) = take (Z.to_nat max_chars) diff)
  /\ ((len diff <= max_chars)%Z -> cap max_chars diff = (diff, false)).
Proof.
  intros Hmax. unfold cap, slice_to, len. split.
  - intros Hlong.
    destruct (Z.gtb_spec (Z.of_nat (length diff)) max_chars) as [_|Hle];
      [|lia].
    destruct (Z.leb_spec 0 max_chars) as [_|Hneg]; [|lia].
    simpl. repeat split. rewrite length_take_le by lia. lia.
  - intros Hshort.
    destruct (Z.gtb_spec (Z.of_nat (length diff)) max_chars) as [Hgt|_];
      [lia|reflexivity].
Qed.

(** ** The prompt *)

(** C9.  The prompt is a function of language, commit type and diff: what
    stands before the opening tag and after the closing tag depends on
    language and type only, and between [<diff>] and [</diff>], each on a
    line of its own, stands the diff exactly as given; equal inputs give
    equal prompts. *)
Theorem prompt_embeds_diff_verbatim :
  (forall lang commit_type, exists before after, forall diff,
     PROMPT_TEMPLATE_format lang commit_type diff
     = before ++ py "<diff>" ++ [10] ++ diff ++ [10] ++ py "</diff>" ++ after)
  /\ (forall lang1 type1 diff1 lang2 type2 diff2,
        lang1 = lang2 -> type1 = type2 -> diff1 = diff2 ->
        PROMPT_TEMPLATE_format lang1 type1 diff1
        = PROMPT_TEMPLATE_format lang2 type2 diff2).
Proof.
  split.
  - intros lang commit_type.
    exists (PROMPT_HEAD ++ lang ++ PROMPT_MID ++ commit_type ++ PROMPT_RULES).
    exists [10]. intros diff. unfold PROMPT_TEMPLATE_format.
    rewrite <- !app_assoc. reflexivity.
  - intros; subst; reflexivity.
Qed.

(** ** The normalisation of the model's text *)

Section PostProcessFacts.

Definition is_double_quote (c : char) : bool := mem c [34].
Definition is_single_quote (c : char) : bool := mem c [39].

(** Neither end of [s] satisfies [p]. *)
Definition edge_free (p : char -> bool) (s : str) : Prop :=
  starts_by p s = false /\ ends_by p s = false.

(** No white space and no straight quote at either end. *)
Definition bare (s : str) : Prop :=
  edge_free isspace s /\ edge_free is_double_quote s
  /\ edge_free is_single_quote s.

Lemma lstrip_by_all (p : char -> bool) (pre s : str) :
  forallb p pre = true -> lstrip_by p (pre ++ s) = lstrip_by p s.
Proof.
  induction pre as [|c pre IH]; simpl; [reflexivity|].
  intros Hp. apply andb_true_iff in Hp. destruct Hp as [-> Hp]. auto.
Qed.

Lemma rstrip_by_all (p : char -> bool) (s post : str) :
  forallb p post = true -> rstrip_by p (s ++ post) = rstrip_by p s.
Proof.
  intros Hp. unfold rstrip_by. rewrite rev_app_distr, lstrip_by_all.
  - reflexivity.
  - rewrite forallb_forall in Hp |- *. intros c Hc. apply Hp.
    apply in_rev. exact Hc.
Qed.

Lemma lstrip_by_keeps_prefix (p : char -> bool) (s post : str) :
  s <> [] -> starts_by p s = false -> lstrip_by p (s ++ post) = s ++ post.
Proof.
  destruct s as [|c s]; [congruence|]. simpl. intros _ ->. reflexivity.
Qed.

(** Stripping takes away whole runs at both ends. *)
Lemma strip_by_runs (p : char -> bool) (pre s post : str) :
  forallb p pre = true -> forallb p post = true -> edge_free p s ->
  strip_by p (pre ++ s ++ post) = s.
Proof.
  intros Hpre Hpost [Hs He]. unfold strip_by.
  rewrite lstrip_by_all by assumption.
  destruct s as [|c s].
  - simpl. destruct (lstrip_by_suffix p post) as [pre' [Heq Hall]].
    assert (Hrest : forallb p (lstrip_by p post) = true).
    { rewrite Heq, forallb_app in Hpost.
      apply andb_true_iff in Hpost. apply Hpost. }
    pose proof (lstrip_by_starts p post) as Hst.
    destruct (lstrip_by p post) as [|c r]; [reflexivity|].
    simpl in Hrest, Hst. rewrite Hst in Hrest. discriminate.
  - rewrite lstrip_by_keeps_prefix by (assumption || discriminate).
    rewrite rstrip_by_all by assumption. apply rstrip_by_id. exact He.
Qed.

Lemma starts_by_app (p : char -> bool) (a b : str) :
  starts_by p (a ++ b)
  = match a with [] => starts_by p b | _ :: _ => starts_by p a end.
Proof. destruct a; reflexivity. Qed.

Lemma ends_by_app (p : char -> bool) (a b : str) :
  ends_by p (a ++ b)
  = match b with [] => ends_by p a | _ :: _ => ends_by p b end.
Proof.
  unfold ends_by. destruct b as [|c b].
  - rewrite app_nil_r. reflexivity.
  - rewrite rev_app_distr, starts_by_app.
    destruct (rev (c :: b)) eqn:E; [|reflexivity].
    apply (f_equal (@length _)) in E. rewrite length_rev in E. discriminate.
Qed.

Lemma starts_by_repeat (p : char -> bool) (q : char) (n : nat) :
  p q = false -> starts_by p (repeat q n) = false.
Proof. destruct n; auto. Qed.

Lemma ends_by_repeat (p : char -> bool) (q : char) (n : nat) :
  p q = false -> ends_by p (repeat q n) = false.
Proof.
  intros Hq. destruct n; [reflexivity|].
  change (repeat q (S n)) with (q :: repeat q n).
  rewrite repeat_cons, ends_by_app. exact Hq.
Qed.

Lemma forallb_repeat (p : char -> bool) (q : char) (n : nat) :
  p q = true -> forallb p (repeat q n) = true.
Proof. intros Hq. induction n; simpl; [reflexivity|]. rewrite Hq. exact IHn. Qed.

(** Quotes of one kind around a text leave it without white space at its
    ends, provided the text has none. *)
Lemma edge_free_wrapped (p : char -> bool) (q : char) (n m : nat) (s : str) :
  p q = false -> edge_free p s ->
  edge_free p (repeat q n ++ s ++ repeat q m).
Proof.
  intros Hq [Hs He]. split.
  - rewrite starts_by_app.
    destruct (repeat q n) eqn:En.
    + rewrite starts_by_app. destruct s; [|exact Hs].
      apply starts_by_repeat. exact Hq.
    + rewrite <- En. apply starts_by_repeat. exact Hq.
  - rewrite app_assoc, ends_by_app.
    destruct (repeat q m) eqn:Em.
    + rewrite ends_by_app. destruct s; [|exact He].
      apply ends_by_repeat. exact Hq.
    + rewrite <- Em. apply ends_by_repeat. exact Hq.
Qed.

Lemma no_break_repeat (q : char) (n : nat) :
  is_linebreak q = false -> no_break (repeat q n).
Proof. intros Hq. induction n; constructor; assumption. Qed.

(** On a text without line boundary only the three strips act. *)
Lemma post_process_no_break (text : str) :
  no_break text ->
  post_process false text
  = strip_chars [39] (strip_chars [34] (strip text)).
Proof.
  intros Hnb. unfold post_process. rewrite join_splitlines_no_break by assumption.
  reflexivity.
Qed.

Lemma post_process_bare (text : str) :
  no_break text -> bare text -> post_process false text = text.
Proof.
  intros Hnb (Hws & Hdq & Hsq). rewrite post_process_no_break by assumption.
  unfold strip, strip_chars.
  rewrite (strip_by_id isspace) by apply Hws.
  rewrite (strip_by_id (fun c => mem c [34])) by apply Hdq.
  apply strip_by_id; apply Hsq.
Qed.

Lemma rstrip_by_suffix (p : char -> bool) (s : str) :
  exists post, s = rstrip_by p s ++ post /\ forallb p post = true.
Proof.
  destruct (lstrip_by_suffix p (rev s)) as [pre [Heq Hall]].
  exists (rev pre). split.
  - unfold rstrip_by. rewrite <- rev_app_distr, <- Heq, rev_involutive.
    reflexivity.
  - rewrite forallb_forall in Hall |- *. intros c Hc. apply Hall.
    apply in_rev. exact Hc.
Qed.

(** What a strip takes away: one run at each end, and all of it. *)
Lemma strip_by_decompose (p : char -> bool) (s : str) :
  exists pre post,
    s = pre ++ strip_by p s ++ post
    /\ forallb p pre = true /\ forallb p post = true
    /\ edge_free p (strip_by p s).
Proof.
  destruct (lstrip_by_suffix p s) as [pre [Hl Hpre]].
  destruct (rstrip_by_suffix p (lstrip_by p s)) as [post [Hr Hpost]].
  exists pre, post. split; [|split; [assumption|split; [assumption|]]].
  - unfold strip_by. rewrite <- Hr. exact Hl.
  - split; [apply strip_by_starts | apply strip_by_ends].
Qed.

(** [m] is [body] inside three layers: white space outermost, then
    straight double quotes, then straight single quotes innermost, each
    layer a run of its characters at either side, and each run complete:
    what a layer encloses has none of its characters at either end. *)
Definition layered (m ws1 dq1 sq1 body sq2 dq2 ws2 : str) : Prop :=
  m = ws1 ++ dq1 ++ sq1 ++ body ++ sq2 ++ dq2 ++ ws2
  /\ forallb isspace ws1 = true /\ forallb isspace ws2 = true
  /\ forallb is_double_quote dq1 = true
  /\ forallb is_double_quote dq2 = true
  /\ forallb is_single_quote sq1 = true
  /\ forallb is_single_quote sq2 = true
  /\ edge_free isspace (dq1 ++ sq1 ++ body ++ sq2 ++ dq2)
  /\ edge_free is_double_quote (sq1 ++ body ++ sq2)
  /\ edge_free is_single_quote body.

(** The text the three strips of [main] work on. *)
Definition joined (truncated : bool) (text : str) : str :=
  join [32]
    (splitlines (if truncated then text ++ py " (truncated diff)" else text)).

Lemma post_process_joined (truncated : bool) (text : str) :
  post_process truncated text
  = strip_chars [39] (strip_chars [34] (strip (joined truncated text))).
Proof. reflexivity. Qed.

Lemma post_process_layers (truncated : bool) (text : str) :
  exists ws1 dq1 sq1 sq2 dq2 ws2,
    layered (joined truncated text)
      ws1 dq1 sq1 (post_process truncated text) sq2 dq2 ws2.
Proof.
  rewrite post_process_joined. generalize (joined truncated text). intros m.
  destruct (strip_by_decompose isspace m) as (ws1 & ws2 & Hm & Hw1 & Hw2 & Ew).
  destruct (strip_by_decompose is_double_quote (strip m))
    as (dq1 & dq2 & Hd & Hd1 & Hd2 & Ed).
  destruct (strip_by_decompose is_single_quote (strip_chars [34] (strip m)))
    as (sq1 & sq2 & Hs & Hs1 & Hs2 & Es).
  change (strip_by isspace m) with (strip m) in Hm, Ew.
  change (strip_by is_double_quote (strip m))
    with (strip_chars [34] (strip m)) in Hd, Ed.
  change (strip_by is_single_quote (strip_chars [34] (strip m)))
    with (strip_chars [39] (strip_chars [34] (strip m))) in Hs, Es.
  exists ws1, dq1, sq1, sq2, dq2, ws2.
  assert (Hmid : sq1 ++ strip_chars [39] (strip_chars [34] (strip m)) ++ sq2
                 = strip_chars [34] (strip m))
    by (symmetry; exact Hs).
  assert (Hout : dq1 ++ sq1 ++ strip_chars [39] (strip_chars [34] (strip m))
                     ++ sq2 ++ dq2
                 = strip m).
  { rewrite Hd at 2. rewrite <- Hmid at 2.
    rewrite <- !app_assoc. reflexivity. }
  unfold layered. rewrite Hmid, Hout.
  split; [|do 6 (split; [assumption|]); split; [|split]; assumption].
  rewrite Hm at 1. rewrite <- Hout at 1. rewrite <- !app_assoc. reflexivity.
Qed.

Lemma post_process_layered
    (truncated : bool) (text ws1 dq1 sq1 body sq2 dq2 ws2 : str) :
  layered (joined truncated text) ws1 dq1 sq1 body sq2 dq2 ws2 ->
  post_process truncated text = body.
Proof.
  intros (Hm & Hw1 & Hw2 & Hd1 & Hd2 & Hs1 & Hs2 & Ew & Ed & Es).
  rewrite post_process_joined, Hm.
  replace (ws1 ++ dq1 ++ sq1 ++ body ++ sq2 ++ dq2 ++ ws2)
    with (ws1 ++ (dq1 ++ sq1 ++ body ++ sq2 ++ dq2) ++ ws2)
    by (rewrite <- !app_assoc; reflexivity).
  unfold strip. rewrite (strip_by_runs isspace) by assumption.
  replace (dq1 ++ sq1 ++ body ++ sq2 ++ dq2)
    with (dq1 ++ (sq1 ++ body ++ sq2) ++ dq2)
    by (rewrite <- !app_assoc; reflexivity).
  unfold strip_chars.
  rewrite (strip_by_runs (fun c => mem c [34])) by assumption.
  apply (strip_by_runs (fun c => mem c [39])); assumption.
Qed.

End PostProcessFacts.

Section PostProcessClaims.

(** Curly quotes stay where they are, and of two layers of straight quotes
    both go. *)
Lemma post_process_quotes_counterexample :
  post_process false ([8220] ++ py "fix: x" ++ [8221])
  = [8220] ++ py "fix: x" ++ [8221]
  /\ post_process false ([34; 34] ++ py "fix: x" ++ [34; 34]) = py "fix: x"
  /\ post_process false ([34; 34] ++ py "fix: x" ++ [34; 34])
     <> [34] ++ py "fix: x" ++ [34].
Proof. vm_compute. repeat split; discriminate. Qed.

(** C5, amended.  The result holds no line boundary; lines are joined with
    one space for each boundary between them; white space around the text is
    trimmed; then every straight double quote at either end is removed,
    however many there are, and then every straight single quote at either
    end; curly quotes (code points 8220 and 8221) are left in place.

    The last two clauses speak of every text and fix the order of the three
    steps: the joined text is the result inside three layers, white space
    outermost, straight double quotes next, straight single quotes
    innermost, each layer complete; and whatever body the joined text holds
    inside three such layers is the result. *)
Theorem post_process_strips_straight_quote_runs :
  (forall truncated text, no_break (post_process truncated text))
  /\ (forall lines,
        Forall no_break lines -> last lines <> Some [] ->
        bare (join [32] lines) ->
        post_process false (join [10] lines) = join [32] lines)
  /\ (forall pre body post,
        no_break (pre ++ body ++ post) ->
        forallb isspace pre = true -> forallb isspace post = true ->
        bare body ->
        post_process false (pre ++ body ++ post) = body)
  /\ (forall n m body,
        no_break body -> bare body ->
        post_process false (repeat 34 n ++ body ++ repeat 34 m) = body)
  /\ (forall n m body,
        no_break body -> bare body ->
        post_process false (repeat 39 n ++ body ++ repeat 39 m) = body)
  /\ (forall body,
        no_break body ->
        post_process false (8220 :: body ++ [8221]) = 8220 :: body ++ [8221])
  /\ (forall truncated text,
        exists ws1 dq1 sq1 sq2 dq2 ws2,
          layered (joined truncated text)
            ws1 dq1 sq1 (post_process truncated text) sq2 dq2 ws2)
  /\ (forall truncated text ws1 dq1 sq1 body sq2 dq2 ws2,
        layered (joined truncated text) ws1 dq1 sq1 body sq2 dq2 ws2 ->
        post_process truncated text = body).
Proof.
  split; [|split; [|split; [|split; [|split; [|split; [|split]]]]]];
    [| | | | | |exact post_process_layers|exact post_process_layered].
  - intros truncated text. unfold post_process, strip_chars, strip.
    do 3 apply strip_by_Forall. apply no_break_join_space, splitlines_no_break.
  - intros lines Hnb Hlast (Hws & Hdq & Hsq). unfold post_process.
    rewrite splitlines_join by assumption. unfold strip, strip_chars.
    rewrite (strip_by_id isspace) by apply Hws.
    rewrite (strip_by_id (fun c => mem c [34])) by apply Hdq.
    apply strip_by_id; apply Hsq.
  - intros pre body post Hnb Hpre Hpost (Hws & Hdq & Hsq).
    rewrite post_process_no_break by assumption. unfold strip, strip_chars.
    rewrite (strip_by_runs isspace) by assumption.
    rewrite (strip_by_id (fun c => mem c [34])) by apply Hdq.
    apply strip_by_id; apply Hsq.
  - intros n m body Hnb (Hws & Hdq & Hsq).
    rewrite post_process_no_break.
    + unfold strip, strip_chars.
      rewrite (strip_by_id isspace)
        by (apply edge_free_wrapped; [reflexivity|assumption]).
      rewrite (strip_by_runs (fun c => mem c [34]))
        by (assumption || (apply forallb_repeat; reflexivity)).
      apply strip_by_id; apply Hsq.
    + repeat (apply Forall_app; split);
        assumption || (apply no_break_repeat; reflexivity).
  - intros n m body Hnb (Hws & Hdq & Hsq).
    rewrite post_process_no_break.
    + unfold strip, strip_chars.
      rewrite (strip_by_id isspace)
        by (apply edge_free_wrapped; [reflexivity|assumption]).
      rewrite (strip_by_id (fun c => mem c [34]))
        by (apply (edge_free_wrapped is_double_quote);
            [reflexivity|assumption]).
      apply (strip_by_runs (fun c => mem c [39]));
        assumption || (apply forallb_repeat; reflexivity).
    + repeat (apply Forall_app; split);
        assumption || (apply no_break_repeat; reflexivity).
  - intros body Hnb.
    assert (Hedge : forall p, p 8220 = false -> p 8221 = false ->
                      edge_free p (8220 :: body ++ [8221])).
    { intros p H1 H2. split; [exact H1|].
      change (8220 :: body ++ [8221]) with ((8220 :: body) ++ [8221]).
      rewrite ends_by_app. exact H2. }
    apply post_process_bare.
    + constructor; [reflexivity|]. apply Forall_app. split; [assumption|].
      repeat constructor.
    + repeat split; apply Hedge; reflexivity.
Qed.

(** A text on one line that no quotes surround, yet a second pass changes
    it: the quote at its end goes in the first pass, the space before it
    only in the second. *)
Lemma post_process_twice_counterexample :
  no_break (py "a " ++ [34])
  /\ starts_by is_double_quote (py "a " ++ [34]) = false
  /\ starts_by is_single_quote (py "a " ++ [34]) = false
  /\ post_process false (py "a " ++ [34]) = py "a "
  /\ post_process false (post_process false (py "a " ++ [34])) = py "a"
  /\ post_process false (post_process false (py "a " ++ [34]))
     <> post_process false (py "a " ++ [34]).
Proof.
  split; [repeat constructor|]. vm_compute. repeat split; discriminate.
Qed.

(** C6, amended.  On a text without line boundary whose trimmed form has a
    straight quote at neither end, and with the flag unset, a second pass
    changes nothing; the first pass only trims. *)
Theorem post_process_idempotent (x : str) :
  no_break x ->
  edge_free is_double_quote (strip x) ->
  edge_free is_single_quote (strip x) ->
  post_process false (post_process false x) = post_process false x
  /\ post_process false x = strip x.
Proof.
  intros Hnb Hdq Hsq.
  assert (Hfirst : post_process false x = strip x).
  { rewrite post_process_no_break by assumption. unfold strip_chars.
    rewrite (strip_by_id (fun c => mem c [34])) by apply Hdq.
    apply strip_by_id; apply Hsq. }
  split; [|exact Hfirst]. rewrite Hfirst. apply post_process_bare.
  - apply strip_by_Forall. exact Hnb.
  - split; [|split; assumption].
    split; [apply strip_by_starts | apply strip_by_ends].
Qed.

End PostProcessClaims.

(** ** call_gemini *)

Section GeminiFacts.
Variable w : World.

(** The errors of [call_gemini].  With the key set: a response without
    candidates (the attribute missing, or the list empty) that carries a
    block reason makes
    [call_gemini] raise a [RuntimeError] whose message contains that reason;
    a response with candidates whose direct text is missing or empty and
    whose fragments, joined and stripped, give nothing makes it raise the
    [RuntimeError] saying the response is empty, and no text is returned. *)
Theorem call_gemini_blocked_or_empty
    (key model_name prompt : str) (resp : Response) (st : state) :
  getenv w (py "GOOGLE_API_KEY") = Some key ->
  generate_content w key model_name prompt = inr resp ->
  (forall fb reason,
     candidates resp = None \/ candidates resp = Some [] ->
     prompt_feedback resp = Some fb -> block_reason fb = Some reason ->
     exists msg,
       fst (call_gemini w model_name prompt st) = Raise (RuntimeError msg)
       /\ contains reason msg = true)
  /\ (forall cand cands,
        candidates resp = Some (cand :: cands) ->
        resp_text resp = None \/ resp_text resp = Some [] ->
        strip (join [10] (flat_map candidate_texts (cand :: cands))) = [] ->
        fst (call_gemini w model_name prompt st)
        = Raise (RuntimeError (py "Resposta do Gemini vazia."))).
Proof.
  intros Hkey Hresp. unfold call_gemini. rewrite Hkey.
  unfold bind, emit. cbn [fst snd]. rewrite Hresp. split.
  - intros fb reason Hc Hfb Hreason. rewrite Hfb, Hreason. cbn [default].
    exists (utf8 "Resposta bloqueada pelo modelo (razão: "
            ++ reason ++ py "). Ajuste o diff/prompt.").
    split; [|apply contains_app].
    destruct Hc as [-> | ->]; reflexivity.
  - intros cand cands Hc Htext Hparts. rewrite Hc.
    destruct Htext as [-> | ->]; rewrite Hparts; reflexivity.
Qed.

(** C7.  Where the code departs from the claim.  The direct text is tested
    for emptiness before it is stripped, the text of the fragments after:
    a response with candidates whose direct text is not empty but made of
    white space only passes both tests as it is, the fragments are not
    looked at, and the strip of the return statement leaves nothing.  With
    the key set, [call_gemini] then raises no error: it returns the empty
    text, after the one call of the model. *)
Theorem call_gemini_blank_direct_text_returned
    (key model_name prompt : str) (resp : Response) (cand : Candidate)
    (cands : list Candidate) (c : char) (text : str) (st : state) :
  getenv w (py "GOOGLE_API_KEY") = Some key ->
  generate_content w key model_name prompt = inr resp ->
  candidates resp = Some (cand :: cands) ->
  resp_text resp = Some (c :: text) ->
  forallb isspace (c :: text) = true ->
  call_gemini w model_name prompt st
  = (Ret [], {| files := files st;
                log := Generate model_name prompt :: log st |}).
Proof.
  intros Hkey Hresp Hc Ht Hws.
  assert (Hs : strip (c :: text) = []).
  { unfold strip. rewrite <- (app_nil_r (c :: text)).
    apply (strip_by_runs isspace (c :: text) [] []);
      [exact Hws | reflexivity | split; reflexivity]. }
  unfold call_gemini. rewrite Hkey.
  unfold bind, emit. cbn [fst snd]. rewrite Hresp, Hc, Ht.
  cbv zeta. cbn [truthy]. unfold ret. do 2 f_equal. exact Hs.
Qed.

End GeminiFacts.

(** ** editor_edit *)

Section EditorFacts.
Variable w : World.

(** C8, amended.  Without an editor (neither [EDITOR] nor [VISUAL] set to a
    non-empty value) the text comes back as it is and nothing is done.  With
    one, the text is written to the temporary file and the editor is started
    on it; whatever status the editor ends with, the function returns the
    final contents of the file stripped of surrounding white space; when the
    file cannot be read back, or the editor cannot be started, the error
    goes on to the caller.  On each of these paths the last thing done is
    the attempt to remove the file, and the file is gone afterwards unless
    that removal itself fails, which is passed over. *)
Theorem editor_edit_trimmed_contents (initial_text : str) (st : state) :
  (editor_setting w = None \/ editor_setting w = Some [] ->
   editor_edit w initial_text st = (Ret initial_text, st))
  /\ (forall c editor,
        editor_setting w = Some (c :: editor) ->
        let path := mktemp w (files st) in
        let argv := split (c :: editor) ++ [path] in
        let written := <[path := initial_text]> (files st) in
        let r := editor_edit w initial_text st in
        head (log (snd r)) = Some (Remove path)
        /\ In (Editor argv) (log (snd r))
        /\ (remove_error w path = None -> files (snd r) !! path = None)
        /\ (forall p after contents,
              subprocess_run w (environ w) argv written = Spawned p after ->
              after !! path = Some contents ->
              fst r = Ret (strip contents))
        /\ (forall p after,
              subprocess_run w (environ w) argv written = Spawned p after ->
              after !! path = None ->
              exists what, fst r = Raise (OSError what))
        /\ (forall what,
              subprocess_run w (environ w) argv written = SpawnFailed what ->
              fst r = Raise (OSError what))).
Proof.
  split.
  - intros [Hed | Hed]; unfold editor_edit; rewrite Hed; reflexivity.
  - intros c editor Hed path argv written r.
    assert (Hr : r = editor_edit w initial_text st) by reflexivity.
    clearbody r. unfold editor_edit in Hr. rewrite Hed in Hr.
    unfold try_finally, try_except, os_remove, bind, emit, get_files,
      put_files, raise, ret in Hr.
    cbn [files log fst snd] in Hr.
    fold path in Hr. fold argv in Hr. fold written in Hr.
    destruct (subprocess_run w (environ w) argv written)
      as [p after | what] eqn:Hrun.
    + cbn [files log] in Hr.
      destruct (after !! path) as [contents|] eqn:Hfile.
      * cbn [files log] in Hr. rewrite Hfile in Hr.
        destruct (remove_error w path) as [err|] eqn:Hrm;
          cbn [files log is_OSError] in Hr; subst r; cbn [fst snd files log].
        -- repeat split; try (left; reflexivity) || (right; left; reflexivity)
             || discriminate || (simpl; auto).
           ++ intros p' after' contents' Heq Hc. congruence.
           ++ intros p' after' Heq Hc. congruence.
        -- repeat split; try (simpl; auto).
           ++ intros _. apply lookup_delete_eq.
           ++ intros p' after' contents' Heq Hc. congruence.
           ++ intros p' after' Heq Hc. congruence.
           ++ discriminate.
      * cbn [files log] in Hr. rewrite Hfile in Hr.
        cbn [files log is_OSError] in Hr. subst r. cbn [fst snd files log].
        repeat split; try (simpl; auto).
        -- intros p' after' contents' Heq Hc. congruence.
        -- intros p' after' _ _. eexists. reflexivity.
        -- discriminate.
    + cbn [files log] in Hr.
      assert (Hw : written !! path = Some initial_text)
        by apply lookup_insert_eq.
      rewrite Hw in Hr.
      destruct (remove_error w path) as [err|] eqn:Hrm;
        cbn [files log is_OSError] in Hr; subst r; cbn [fst snd files log].
      * repeat split; try (simpl; auto); try discriminate.
        intros what' Heq. congruence.
      * repeat split; try (simpl; auto); try discriminate.
        -- intros _. apply lookup_delete_eq.
        -- intros what' Heq. congruence.
Qed.

End EditorFacts.

(** ** What a run does to the outside *)

(** The remote call. *)
Definition is_generate (e : event) : bool :=
  match e with
  | Generate _ _ => true
  | _ => false
  end.

(** A [git commit] started through [run]. *)
Definition is_commit (e : event) : bool :=
  match e with
  | Subprocess (prog :: sub :: _) =>
      bool_decide (prog = py "git") && bool_decide (sub = py "commit")
  | _ => false
  end.

(** Neither the remote call nor the commit. *)
Definition harmless (e : event) : Prop :=
  is_generate e = false /\ is_commit e = false.

(** [m] adds to the log only events that satisfy [P]. *)
Definition emits_only {A} (P : event -> Prop) (m : M A) : Prop :=
  forall st, exists new,
    log (snd (m st)) = new ++ log st /\ Forall P new.

Create HintDb footprint.

Section Footprint.
Context {A B : Type} (P : event -> Prop).

Lemma emits_only_ret (a : A) : emits_only P (ret a).
Proof. intros st. exists []. split; [reflexivity|constructor]. Qed.

Lemma emits_only_raise (e : exn) : emits_only P (@raise A e).
Proof. intros st. exists []. split; [reflexivity|constructor]. Qed.

Lemma emits_only_sys_exit (code : Z) : emits_only P (@sys_exit A code).
Proof. intros st. exists []. split; [reflexivity|constructor]. Qed.

Lemma emits_only_get_files : emits_only P get_files.
Proof. intros st. exists []. split; [reflexivity|constructor]. Qed.

Lemma emits_only_put_files (f : gmap str str) : emits_only P (put_files f).
Proof. intros st. exists []. split; [reflexivity|constructor]. Qed.

Lemma emits_only_emit (e : event) : P e -> emits_only P (emit e).
Proof. intros He st. exists [e]. split; [reflexivity|]. repeat constructor. exact He. Qed.

Lemma emits_only_bind (m : M A) (k : A -> M B) :
  emits_only P m -> (forall a, emits_only P (k a)) -> emits_only P (bind m k).
Proof.
  intros Hm Hk st. unfold bind.
  destruct (Hm st) as [new1 [Hlog1 Hall1]].
  destruct (m st) as [[a | e | code] st1]; simpl in Hlog1;
    try (exists new1; split; assumption).
  destruct (Hk a st1) as [new2 [Hlog2 Hall2]].
  exists (new2 ++ new1). split.
  - rewrite Hlog2, Hlog1. apply app_assoc.
  - apply Forall_app. split; assumption.
Qed.

Lemma emits_only_try_except (body : M A) (catches : exn -> bool)
    (handler : exn -> M A) :
  emits_only P body -> (forall e, emits_only P (handler e)) ->
  emits_only P (try_except body catches handler).
Proof.
  intros Hb Hh st. unfold try_except.
  destruct (Hb st) as [new1 [Hlog1 Hall1]].
  destruct (body st) as [[a | e | code] st1]; simpl in Hlog1;
    try (exists new1; split; assumption).
  destruct (catches e); [|exists new1; split; assumption].
  destruct (Hh e st1) as [new2 [Hlog2 Hall2]].
  exists (new2 ++ new1). split.
  - rewrite Hlog2, Hlog1. apply app_assoc.
  - apply Forall_app. split; assumption.
Qed.

Lemma emits_only_try_finally (body : M A) (final : M unit) :
  emits_only P body -> emits_only P final ->
  emits_only P (try_finally body final).
Proof.
  intros Hb Hf st. unfold try_finally.
  destruct (Hb st) as [new1 [Hlog1 Hall1]].
  destruct (body st) as [r st1]. simpl in Hlog1.
  destruct (Hf st1) as [new2 [Hlog2 Hall2]].
  exists (new2 ++ new1). split.
  - destruct (final st1) as [[[] | e | code] st2]; simpl in Hlog2 |- *;
      rewrite Hlog2, Hlog1; apply app_assoc.
  - apply Forall_app. split; assumption.
Qed.

End Footprint.

Lemma emits_only_weaken {A} (P Q : event -> Prop) (m : M A) :
  (forall e, P e -> Q e) -> emits_only P m -> emits_only Q m.
Proof.
  intros HPQ Hm st. destruct (Hm st) as [new [Hlog Hall]].
  exists new. split; [exact Hlog|]. eapply Forall_impl; eassumption.
Qed.

#[local] Hint Resolve emits_only_ret emits_only_raise emits_only_sys_exit
  emits_only_get_files emits_only_put_files emits_only_emit emits_only_bind
  emits_only_try_except emits_only_try_finally : footprint.
#[local] Hint Extern 1 (emits_only _ (match ?x with _ => _ end)) =>
  destruct x : footprint.
#[local] Hint Extern 1 (emits_only _ (print _)) =>
  apply emits_only_emit : footprint.
#[local] Hint Extern 1 (emits_only _ (print_err _)) =>
  apply emits_only_emit : footprint.
#[local] Hint Extern 1 (harmless _) => split; reflexivity : footprint.
#[local] Hint Extern 1 (is_commit _ = false) => reflexivity : footprint.

Section RunFacts.
Context `{Unicode}.
Variable w : World.

Lemma run_emits (P : event -> Prop) (cmd : list str) (check : bool) :
  P (Subprocess cmd) -> emits_only P (run w cmd check).
Proof. intros Hcmd. unfold run. auto 10 with footprint. Qed.

(** Up to the retrieval of the diff the script starts [git rev-parse] and
    [git diff], changes directory and prints: no remote call, no commit. *)
Lemma retrieve_diff_harmless (args : Args) :
  emits_only harmless (retrieve_diff w args).
Proof.
  unfold retrieve_diff, get_repo_root, chdir, get_diff.
  destruct (unstaged args); cbn [negb];
    repeat first
      [ apply run_emits; split; reflexivity
      | apply emits_only_try_except; [|intros ?]
      | apply emits_only_bind; [|intros ?]
      | match goal with
        | |- emits_only _ (match ?x with _ => _ end) => destruct x
        end
      | solve [auto with footprint] ].
Qed.

(** No [git commit] through [run]. *)
Definition no_commit (e : event) : Prop := is_commit e = false.

Ltac footprint :=
  repeat
    match goal with
    | |- emits_only _ (bind _ _) => apply emits_only_bind; [|intros ?]
    | |- emits_only _ (run _ _ _) => apply run_emits
    | |- emits_only _ (try_except _ _ _) =>
        apply emits_only_try_except; [|intros ?]
    | |- emits_only _ (try_finally _ _) => apply emits_only_try_finally
    | |- emits_only _ (emit _) => apply emits_only_emit
    | |- emits_only _ (print _) => apply emits_only_emit
    | |- emits_only _ (print_err _) => apply emits_only_emit
    | |- emits_only _ (ret _) => apply emits_only_ret
    | |- emits_only _ (raise _) => apply emits_only_raise
    | |- emits_only _ (sys_exit _) => apply emits_only_sys_exit
    | |- emits_only _ get_files => apply emits_only_get_files
    | |- emits_only _ (put_files _) => apply emits_only_put_files
    | |- emits_only _ (match ?x with _ => _ end) => destruct x
    | |- is_commit _ = false => reflexivity
    | |- harmless _ => split; reflexivity
    end.

(** From the diff to the final message the script calls the model, prints
    and starts the editor, and never a commit. *)
Lemma final_message_no_commit (args : Args) (diff : str) :
  emits_only no_commit (final_message w args diff).
Proof.
  unfold final_message, ensure_gemini_key, call_gemini, editor_edit,
    os_remove, no_commit.
  footprint.
Qed.

Lemma main_print_only_no_commit (args : Args) :
  print_only args = true -> emits_only no_commit (main w args).
Proof.
  intros Hp. unfold main.
  apply emits_only_bind.
  - eapply emits_only_weaken; [|apply retrieve_diff_harmless].
    intros e [_ He]. exact He.
  - intros diff. apply emits_only_bind; [apply final_message_no_commit|].
    intros final_msg. unfold deliver. rewrite Hp.
    apply emits_only_emit. reflexivity.
Qed.

(** C3.  When the diff that the run retrieved is empty once stripped, in
    staged mode or not, the run ends by [sys.exit(1)], so with status 1, and
    its whole log holds neither the remote call nor a commit. *)
Theorem blank_diff_exits_without_model_or_commit
    (args : Args) (f : gmap str str) (diff : str) (st1 : state) :
  retrieve_diff w args (start f) = (Ret diff, st1) ->
  strip diff = [] ->
  fst (main w args (start f)) = SysExit 1%Z
  /\ exit_status (fst (main w args (start f))) = 1%Z
  /\ Forall harmless (log (snd (main w args (start f)))).
Proof.
  intros Hdiff Hblank.
  destruct (retrieve_diff_harmless args (start f)) as [new [Hlog Hall]].
  rewrite Hdiff in Hlog. cbn [snd start log] in Hlog.
  rewrite app_nil_r in Hlog.
  assert (Hmain : main w args (start f)
                  = (SysExit 1%Z,
                     {| files := files st1;
                        log := Stderr (py " Diff vazio. Nada para descrever.")
                               :: log st1 |})).
  { unfold main. unfold bind at 1. rewrite Hdiff.
    unfold bind at 1. unfold final_message. rewrite Hblank. reflexivity. }
  rewrite Hmain. cbn [fst snd log exit_status].
  repeat split. rewrite Hlog. constructor; [split; reflexivity|exact Hall].
Qed.

(** C4.  With [--print-only] no run, whatever the world answers and however
    it ends, starts a commit; and a run that gets as far as a final message
    prints that message as its last act and returns. *)
Theorem print_only_never_commits (args : Args) (f : gmap str str) :
  print_only args = true ->
  Forall no_commit (log (snd (main w args (start f))))
  /\ (forall diff st1 final_msg st2,
        retrieve_diff w args (start f) = (Ret diff, st1) ->
        final_message w args diff st1 = (Ret final_msg, st2) ->
        main w args (start f)
        = (Ret tt, {| files := files st2;
                      log := Stdout final_msg :: log st2 |})).
Proof.
  intros Hp. split.
  - destruct (main_print_only_no_commit args Hp (start f))
      as [new [Hlog Hall]].
    rewrite Hlog. cbn [start log]. rewrite app_nil_r. exact Hall.
  - intros diff st1 final_msg st2 Hdiff Hmsg.
    unfold main, bind. rewrite Hdiff, Hmsg. unfold deliver. rewrite Hp.
    reflexivity.
Qed.

End RunFacts.

(** ** Runs on concrete worlds *)

(** Lowering that leaves every code point outside ASCII alone: it is
    [str.lower] on ASCII text, and makes the model run. *)
Definition AsciiOnly : Unicode :=
  {| lower := map ascii_lower; lower_ascii := fun s _ => eq_refl |}.

Definition completed (code : Z) (out : str) : CompletedProcess :=
  {| returncode := code; stdout := out; stderr := [] |}.

(** [s.split(sep)] for a separator of one code point. *)
Fixpoint split_on (sep : char) (s : str) : list str :=
  match s with
  | [] => [[]]
  | c :: rest =>
      if c =? sep then [] :: split_on sep rest
      else match split_on sep rest with
           | [] => [[c]]
           | part :: parts => (c :: part) :: parts
           end
  end.

(** The text of a path on a POSIX system: empty parts and [.] parts go,
    exactly two slashes at the front stay two, and nothing at all is [.]. *)
Definition posix_path (s : str) : str :=
  let parts :=
    List.filter
      (fun part => negb (bool_decide (part = []))
                   && negb (bool_decide (part = py ".")))
      (split_on 47 s) in
  let root :=
    if startswith (py "//") s && negb (startswith (py "///") s) then py "//"
    else if startswith (py "/") s then py "/"
    else [] in
  match root, parts with
  | [], [] => py "."
  | _, _ => root ++ join [47] parts
  end.

Example posix_path_normal_forms :
  posix_path [] = py "." /\ posix_path (py "/repo") = py "/repo"
  /\ posix_path (py "/repo//sub/./x/") = py "/repo/sub/x"
  /\ posix_path (py "//srv/x") = py "//srv/x"
  /\ posix_path (py "///srv/x") = py "/srv/x".
Proof. vm_compute. repeat split. Qed.

(** A command line: the three flags, the other values as without them. *)
Definition flags (unstaged no_edit print_only : bool) : Args := {|
  unstaged := unstaged;
  ctype := py "chore";
  lang := py "pt-BR";
  no_edit := no_edit;
  model := py "gemini-1.5-flash";
  print_only := print_only
|}.

(** A world that answers [git rev-parse] with a root, the listing of staged
    files with [names], [git diff] with [diff_text] and [git commit] with
    success; any other program is the editor: it ends with status 1 and
    leaves [edited] in the file named last, or removes that file. *)
Definition scripted_world (env : gmap str str) (names diff_text : str)
    (answer : exn + Response) (edited : option str) : World := {|
  environ := env;
  MAX_DIFF_CHARS := 40000;
  parse_args := Parsed (flags false false false);
  subprocess_run := fun _ argv f =>
    match argv with
    | prog :: sub :: rest =>
        if bool_decide (prog = py "git") then
          if bool_decide (sub = py "rev-parse")
          then Spawned (completed 0 (py "/repo" ++ [10])) f
          else if bool_decide (sub = py "diff") then
            if bool_decide (head rest = Some (py "--name-only"))
            then Spawned (completed 0 names) f
            else Spawned (completed 0 diff_text) f
          else Spawned (completed 0 []) f
        else
          let path := default [] (last argv) in
          Spawned (completed 1 [])
            (match edited with
             | Some text => <[path := text]> f
             | None => delete path f
             end)
    | _ => SpawnFailed (py "No such file or directory")
    end;
  called_process_msg := fun _ _ => py "Command returned non-zero exit status";
  Path := posix_path;
  chdir_error := fun _ => None;
  generate_content := fun _ _ _ => answer;
  mktemp := fun _ => py "/tmp/tmpab12.tmp";
  remove_error := fun _ => None
|}.

Definition text_response (text : str) : Response := {|
  candidates := Some [{| content := None |}];
  prompt_feedback := None;
  resp_text := Some text
|}.

Definition blocked_response (reason : str) : Response := {|
  candidates := Some [];
  prompt_feedback := Some {| block_reason := Some reason |};
  resp_text := None
|}.

Definition hollow_response : Response := {|
  candidates :=
    Some [{| content := Some {| parts := Some [PartOther; PartDict None;
                                                PartDict (Some (py " "))] |} |}];
  prompt_feedback := None;
  resp_text := None
|}.

Definition with_key : gmap str str := {[ py "GOOGLE_API_KEY" := py "k" ]}.

Definition with_key_and_editor : gmap str str :=
  <[ py "EDITOR" := py "vi" ]> with_key.

(** *** The sanitiser on a small diff *)

Definition secret_line : str := py "+API_KEY = 'abc'".

Definition small_diff : str :=
  py "+a = 1" ++ [10] ++ secret_line ++ [10] ++ py "-b = 2" ++ [10].

Lemma strip_sensitive_lines_line_filter_witness :
  In (py "api_key") keywords
  /\ contains (py "api_key") (@lower AsciiOnly secret_line) = true
  /\ startswith (py "+") secret_line = true
  /\ splitlines small_diff = [py "+a = 1"] ++ secret_line :: [py "-b = 2"]
  /\ @strip_sensitive_lines AsciiOnly small_diff
     = py "+a = 1" ++ [10] ++ py "-b = 2"
  /\ ~ In secret_line
         (filter (fun l => @dropped AsciiOnly l = false)
            (splitlines small_diff))
  /\ In (py "-b = 2")
        (filter (fun l => @dropped AsciiOnly l = false)
           (splitlines small_diff))
  /\ filter (fun l => @dropped AsciiOnly l = false) (splitlines small_diff)
     = filter (fun l => @dropped AsciiOnly l = false) [py "+a = 1"]
       ++ filter (fun l => @dropped AsciiOnly l = false) [py "-b = 2"]
  /\ splitlines (@strip_sensitive_lines AsciiOnly small_diff)
     = filter (fun l => @dropped AsciiOnly l = false) (splitlines small_diff).
Proof.
  assert (Hkw : In (py "api_key") keywords) by (left; reflexivity).
  assert (Hc : contains (py "api_key") (@lower AsciiOnly secret_line) = true)
    by reflexivity.
  assert (Hp : startswith (py "+") secret_line = true) by reflexivity.
  assert (Hl : splitlines small_diff
               = [py "+a = 1"] ++ secret_line :: [py "-b = 2"])
    by reflexivity.
  destruct (@strip_sensitive_lines_line_filter AsciiOnly small_diff)
    as (H1 & _ & H3 & H4 & H5 & H6).
  do 4 (split; [assumption|]).
  split; [rewrite H1; vm_compute; reflexivity|].
  split; [exact (H3 _ _ Hkw Hc Hp)|].
  split; [apply H4;
          [right; right; left; reflexivity | reflexivity | reflexivity]|].
  split; [exact (H5 _ _ _ _ Hl Hkw Hc Hp)|].
  apply H6. vm_compute. discriminate.
Defined.


Lemma plus_header_dropped_minus_header_kept_witness :
  In (py "token") keywords
  /\ contains (py "token") (@lower AsciiOnly (py "+++ b/token_store.py"))
     = true
  /\ startswith (py "+++") (py "+++ b/token_store.py") = true
  /\ startswith (py "---") (py "--- a/token_store.py") = true
  /\ @sanitize_step AsciiOnly [py "--- a/token_store.py"]
       (py "+++ b/token_store.py")
     = [py "--- a/token_store.py"]
  /\ @sanitize_step AsciiOnly [] (py "--- a/token_store.py")
     = [py "--- a/token_store.py"].
Proof.
  assert (Hkw : In (py "token") keywords)
    by (right; right; right; left; reflexivity).
  assert (Hc : contains (py "token")
                 (@lower AsciiOnly (py "+++ b/token_store.py")) = true)
    by reflexivity.
  assert (Hp : startswith (py "+++") (py "+++ b/token_store.py") = true)
    by reflexivity.
  assert (Hm : startswith (py "---") (py "--- a/token_store.py") = true)
    by reflexivity.
  destruct (@plus_header_dropped_minus_header_kept AsciiOnly) as (H1 & H2 & _).
  do 4 (split; [assumption|]).
  split; [exact (proj2 (H1 _ _ [py "--- a/token_store.py"] Hkw Hc Hp))|].
  rewrite (proj2 (H2 _ [] Hm)). reflexivity.
Defined.

(** *** The cap, the prompt, the normalisation *)

Lemma cap_nonnegative_max_witness :
  (0 <= 3)%Z
  /\ (len (py "abcdef") > 3)%Z
  /\ (len (py "abc") <= 3)%Z
  /\ len (fst (cap 3 (py "abcdef"))) = 3%Z
  /\ snd (cap 3 (py "abcdef")) = true
  /\ fst (cap 3 (py "abcdef")) = py "abc"
  /\ cap 3 (py "abc") = (py "abc", false).
Proof.
  assert (H0 : (0 <= 3)%Z) by lia.
  assert (Hlong : (len (py "abcdef") > 3)%Z) by reflexivity.
  assert (Hshort : (len (py "abc") <= 3)%Z) by discriminate.
  destruct (proj1 (cap_nonnegative_max 3 (py "abcdef") H0) Hlong)
    as (H1 & H2 & H3).
  pose proof (proj2 (cap_nonnegative_max 3 (py "abc") H0) Hshort) as H4.
  do 6 (split; [assumption|]). exact H4.
Defined.

Lemma prompt_embeds_diff_verbatim_witness :
  PROMPT_TEMPLATE_format (py "en") (py "fix") (py "+a")
  = PROMPT_TEMPLATE_format (py "en") (py "fix") (py "+a")
  /\ exists before after,
       PROMPT_TEMPLATE_format (py "en") (py "fix") (py "+a")
       = before ++ py "<diff>" ++ [10] ++ py "+a" ++ [10] ++ py "</diff>"
         ++ after.
Proof.
  destruct prompt_embeds_diff_verbatim as [Hembed Hdet]. split.
  - apply Hdet; reflexivity.
  - destruct (Hembed (py "en") (py "fix")) as (before & after & Heq).
    exists before, after. apply Heq.
Defined.

Lemma bare_fix_x : bare (py "fix: x").
Proof. repeat split. Qed.

Lemma post_process_strips_straight_quote_runs_witness :
  no_break (py "fix: x") /\ bare (py "fix: x")
  /\ post_process false (repeat 34 2 ++ py "fix: x" ++ repeat 34 1)
     = py "fix: x"
  /\ post_process false (repeat 39 1 ++ py "fix: x" ++ repeat 39 3)
     = py "fix: x"
  /\ post_process false (py "  " ++ py "fix: x" ++ py " ") = py "fix: x"
  /\ post_process false (join [10] [py "fix:"; py "x"]) = py "fix: x"
  /\ post_process false (8220 :: py "fix: x" ++ [8221])
     = 8220 :: py "fix: x" ++ [8221]
  /\ layered (joined false (py " " ++ [34; 39] ++ py " x " ++ [39; 34]))
       (py " ") [34] [39] (py " x ") [39] [34] []
  /\ post_process false (py " " ++ [34; 39] ++ py " x " ++ [39; 34])
     = py " x "
  /\ layered (joined true ([39; 34] ++ py "x"))
       [] [] [39] ([34] ++ py "x (truncated diff)") [] [] []
  /\ post_process true ([39; 34] ++ py "x")
     = [34] ++ py "x (truncated diff)".
Proof.
  assert (Hnb : no_break (py "fix: x")) by (repeat constructor).
  pose proof bare_fix_x as Hbare.
  assert (Hlay : layered
                   (joined false (py " " ++ [34; 39] ++ py " x " ++ [39; 34]))
                   (py " ") [34] [39] (py " x ") [39] [34] [])
    by (vm_compute; repeat split).
  assert (Hcut : layered (joined true ([39; 34] ++ py "x"))
                   [] [] [39] ([34] ++ py "x (truncated diff)") [] [] [])
    by (vm_compute; repeat split).
  destruct post_process_strips_straight_quote_runs
    as (_ & Hlines & Htrim & Hdq & Hsq & Hcurly & _ & Hlayers).
  do 2 (split; [assumption|]).
  split; [apply Hdq; assumption|].
  split; [apply Hsq; assumption|].
  split; [apply Htrim; try assumption; try reflexivity; repeat constructor|].
  split; [apply (Hlines [py "fix:"; py "x"]);
          [repeat constructor | discriminate | exact Hbare]|].
  split; [apply Hcurly; exact Hnb|].
  split; [exact Hlay|].
  split; [exact (Hlayers _ _ _ _ _ _ _ _ _ Hlay)|].
  split; [exact Hcut|].
  exact (Hlayers _ _ _ _ _ _ _ _ _ Hcut).
Defined.

Lemma post_process_idempotent_witness :
  no_break (py "  fix: x ")
  /\ edge_free is_double_quote (strip (py "  fix: x "))
  /\ edge_free is_single_quote (strip (py "  fix: x "))
  /\ post_process false (post_process false (py "  fix: x "))
     = post_process false (py "  fix: x ")
  /\ post_process false (py "  fix: x ") = strip (py "  fix: x ").
Proof.
  assert (Hnb : no_break (py "  fix: x ")) by (repeat constructor).
  assert (Hdq : edge_free is_double_quote (strip (py "  fix: x ")))
    by (split; reflexivity).
  assert (Hsq : edge_free is_single_quote (strip (py "  fix: x ")))
    by (split; reflexivity).
  destruct (post_process_idempotent (py "  fix: x ") Hnb Hdq Hsq) as [H1 H2].
  do 4 (split; [assumption|]). exact H2.
Defined.

(** *** The model's answers *)

Definition blocked_world : World :=
  scripted_world with_key [] [] (inr (blocked_response (py "SAFETY"))) None.

Definition hollow_world : World :=
  scripted_world with_key [] [] (inr hollow_response) None.

Lemma call_gemini_blocked_or_empty_witness :
  getenv blocked_world (py "GOOGLE_API_KEY") = Some (py "k")
  /\ getenv hollow_world (py "GOOGLE_API_KEY") = Some (py "k")
  /\ (exists msg,
        fst (call_gemini blocked_world (py "m") (py "p") (start ∅))
        = Raise (RuntimeError msg)
        /\ contains (py "SAFETY") msg = true)
  /\ fst (call_gemini hollow_world (py "m") (py "p") (start ∅))
     = Raise (RuntimeError (py "Resposta do Gemini vazia.")).
Proof.
  assert (Hk1 : getenv blocked_world (py "GOOGLE_API_KEY") = Some (py "k"))
    by (vm_compute; reflexivity).
  assert (Hk2 : getenv hollow_world (py "GOOGLE_API_KEY") = Some (py "k"))
    by (vm_compute; reflexivity).
  do 2 (split; [assumption|]). split.
  - refine (proj1 (call_gemini_blocked_or_empty blocked_world (py "k")
                     (py "m") (py "p") (blocked_response (py "SAFETY"))
                     (start ∅) Hk1 eq_refl)
              {| block_reason := Some (py "SAFETY") |} (py "SAFETY")
              _ eq_refl eq_refl).
    right. reflexivity.
  - refine (proj2 (call_gemini_blocked_or_empty hollow_world (py "k")
                     (py "m") (py "p") hollow_response
                     (start ∅) Hk2 eq_refl) _ [] eq_refl _ _).
    + left. reflexivity.
    + vm_compute. reflexivity.
Defined.

(** A model that answers with two spaces. *)
Definition blank_answer_world : World :=
  scripted_world with_key [] [] (inr (text_response (py "  "))) None.

Lemma call_gemini_blank_direct_text_returned_witness :
  getenv blank_answer_world (py "GOOGLE_API_KEY") = Some (py "k")
  /\ forallb isspace (py "  ") = true
  /\ call_gemini blank_answer_world (py "m") (py "p") (start ∅)
     = (Ret [], {| files := ∅; log := [Generate (py "m") (py "p")] |}).
Proof.
  assert (Hk : getenv blank_answer_world (py "GOOGLE_API_KEY")
               = Some (py "k"))
    by (vm_compute; reflexivity).
  do 2 (split; [assumption || reflexivity|]).
  exact (call_gemini_blank_direct_text_returned blank_answer_world (py "k")
           (py "m") (py "p") (text_response (py "  ")) _ [] 32 [32]
           (start ∅) Hk eq_refl eq_refl eq_refl eq_refl).
Defined.

(** *** The editor *)

(** The editor [vi] leaves the line it was given, with the line feed that
    editors put at the end. *)
Definition editing_world : World :=
  scripted_world with_key_and_editor (py "a.py" ++ [10])
    (py "+a = 1" ++ [10]) (inr (text_response (py "fix: x")))
    (Some (py "fix: x" ++ [10])).

Definition tmp_path : str := py "/tmp/tmpab12.tmp".

(** The file ends as the message and a line feed; what comes back is the
    message without it. *)
Lemma editor_edit_contents_counterexample :
  editor_setting editing_world = Some (py "vi")
  /\ subprocess_run editing_world (environ editing_world)
       [py "vi"; tmp_path] (<[tmp_path := py "draft"]> ∅)
     = Spawned (completed 1 []) (<[tmp_path := py "fix: x" ++ [10]]> ∅)
  /\ (<[tmp_path := py "fix: x" ++ [10]]> (∅ : gmap str str)) !! tmp_path
     = Some (py "fix: x" ++ [10])
  /\ fst (editor_edit editing_world (py "draft") (start ∅))
     = Ret (py "fix: x")
  /\ py "fix: x" <> py "fix: x" ++ [10].
Proof.
  split; [vm_compute; reflexivity|].
  split.
  { cbn. rewrite insert_insert_eq. reflexivity. }
  split; [apply lookup_insert_eq|].
  split; [vm_compute; reflexivity|discriminate].
Qed.

Lemma editor_edit_trimmed_contents_witness :
  editor_setting editing_world = Some (py "vi")
  /\ remove_error editing_world tmp_path = None
  /\ fst (editor_edit editing_world (py "draft") (start ∅))
     = Ret (strip (py "fix: x" ++ [10]))
  /\ head (log (snd (editor_edit editing_world (py "draft") (start ∅))))
     = Some (Remove tmp_path)
  /\ files (snd (editor_edit editing_world (py "draft") (start ∅)))
     !! tmp_path = None.
Proof.
  assert (Hed : editor_setting editing_world = Some (py "vi"))
    by (vm_compute; reflexivity).
  destruct (proj2 (editor_edit_trimmed_contents editing_world (py "draft")
                     (start ∅)) 118 [105] Hed)
    as (Hlast & _ & Hgone & Hread & _ & _).
  do 2 (split; [assumption || reflexivity|]).
  split.
  - apply (Hread (completed 1 []) (<[tmp_path := py "fix: x" ++ [10]]> ∅)).
    + cbn. rewrite insert_insert_eq. reflexivity.
    + apply lookup_insert_eq.
  - split; [exact Hlast|]. apply Hgone. reflexivity.
Defined.

(** *** Whole runs *)

(** Nothing is staged: the listing and the diff are both empty. *)
Definition nothing_staged_world : World :=
  scripted_world with_key [] [] (inr (text_response (py "fix: x"))) None.

Lemma blank_diff_exits_without_model_or_commit_witness :
  unstaged (flags false true false) = false
  /\ retrieve_diff nothing_staged_world (flags false true false) (start ∅)
     = (Ret [],
        snd (retrieve_diff nothing_staged_world (flags false true false)
               (start ∅)))
  /\ strip [] = []
  /\ fst (@main AsciiOnly nothing_staged_world (flags false true false)
            (start ∅))
     = SysExit 1%Z
  /\ exit_status
       (fst (@main AsciiOnly nothing_staged_world (flags false true false)
               (start ∅)))
     = 1%Z
  /\ Forall harmless
       (log (snd (@main AsciiOnly nothing_staged_world
                    (flags false true false) (start ∅)))).
Proof.
  assert (Hdiff :
    retrieve_diff nothing_staged_world (flags false true false) (start ∅)
    = (Ret [],
       snd (retrieve_diff nothing_staged_world (flags false true false)
              (start ∅))))
    by (vm_compute; reflexivity).
  assert (Hblank : strip [] = []) by reflexivity.
  split; [reflexivity|]. do 2 (split; [assumption|]).
  exact (@blank_diff_exits_without_model_or_commit AsciiOnly
           nothing_staged_world (flags false true false) ∅ [] _ Hdiff Hblank).
Defined.

Lemma print_only_never_commits_witness :
  print_only (flags false false true) = true
  /\ Forall no_commit
       (log (snd (@main AsciiOnly editing_world (flags false false true)
                    (start ∅))))
  /\ exists st2,
       log st2
       = [Remove tmp_path; Editor [py "vi"; tmp_path];
          TempFile tmp_path (py "fix: x")]
         ++ drop 3 (log st2)
       /\ @main AsciiOnly editing_world (flags false false true) (start ∅)
          = (Ret tt, {| files := files st2;
                        log := Stdout (py "fix: x") :: log st2 |}).
Proof.
  assert (Hp : print_only (flags false false true) = true) by reflexivity.
  destruct (@print_only_never_commits AsciiOnly editing_world
              (flags false false true) ∅ Hp) as [Hquiet Hprint].
  do 2 (split; [assumption|]).
  pose (st1 := snd (retrieve_diff editing_world (flags false false true)
                      (start ∅))).
  pose (st2 := snd (@final_message AsciiOnly editing_world
                      (flags false false true) (py "+a = 1" ++ [10]) st1)).
  exists st2. split; [vm_compute; reflexivity|].
  apply (Hprint (py "+a = 1" ++ [10]) st1 (py "fix: x") st2);
    vm_compute; reflexivity.
Defined.

(** * Further properties of the script *)

(** ** More about lines *)

Section LineFacts.

(** Splitting what LF joined gives the lines back, but for an empty last
    line, which gets lost. *)
Lemma splitlines_join_cases (ls : list str) :
  Forall no_break ls ->
  splitlines (join [10] ls) = ls
  \/ exists front, ls = front ++ [[]] /\ splitlines (join [10] ls) = front.
Proof.
  induction 1 as [|l ls Hl Hls IH]; [left; reflexivity|].
  destruct ls as [|l2 ls2].
  - destruct l as [|c l].
    + right. exists []. split; reflexivity.
    + left. apply splitlines_single; [assumption|discriminate].
  - change (join [10] (l :: l2 :: ls2))
      with (l ++ 10 :: join [10] (l2 :: ls2)).
    rewrite splitlines_break_free_prefix by assumption.
    destruct IH as [IH | [front [Hfront IH]]].
    + left. rewrite IH. reflexivity.
    + right. exists (l :: front). rewrite IH, Hfront. split; reflexivity.
Qed.

Definition total_length (sep : str) (ls : list str) : nat :=
  list_sum (map (fun l => length l + length sep)%nat ls).

Lemma length_join (sep : str) (ls : list str) :
  length (join sep ls) = (total_length sep ls - length sep)%nat.
Proof.
  induction ls as [|l ls IH]; [reflexivity|].
  destruct ls as [|l2 ls2].
  - unfold total_length. simpl. lia.
  - change (join sep (l :: l2 :: ls2)) with (l ++ sep ++ join sep (l2 :: ls2)).
    rewrite !length_app, IH. unfold total_length. simpl. lia.
Qed.

Lemma total_length_filter (sep : str) (P : str -> Prop)
    `{forall l, Decision (P l)} (ls : list str) :
  le (total_length sep (filter P ls)) (total_length sep ls).
Proof.
  induction ls as [|l ls IH]; [reflexivity|].
  rewrite filter_cons. unfold total_length in *.
  destruct (decide (P l)); simpl; lia.
Qed.

(** Joining the lines of a text with LF never gives more than the text:
    each terminator took at least one code point. *)
Lemma length_join_splitlines (s : str) :
  le (length (join [10] (splitlines s))) (length s).
Proof.
  assert (Hboth :
    le (length (join [10] (splitlines s))) (length s)
    /\ forall c,
         le (length (join [10] (splitlines (c :: s)))) (S (length s))).
  { induction s as [|c2 s IH].
    - split; [reflexivity|]. intros c. simpl.
      destruct (is_linebreak c); simpl; lia.
    - destruct IH as [IH1 IH2]. split; [apply IH2|].
      intros c. specialize (IH2 c2).
      change (splitlines (c :: c2 :: s)) with
        (if is_linebreak c then
           if (c =? 13) && (c2 =? 10) then [] :: splitlines s
           else [] :: splitlines (c2 :: s)
         else match splitlines (c2 :: s) with
              | [] => [[c]]
              | l :: ls => (c :: l) :: ls
              end).
      destruct (is_linebreak c).
      + destruct ((c =? 13) && (c2 =? 10)).
        * destruct (splitlines s) as [|l ls]; [simpl; lia|].
          change (join [10] ([] :: l :: ls)) with (10 :: join [10] (l :: ls)).
          simpl length in *. lia.
        * destruct (splitlines (c2 :: s)) as [|l ls]; [simpl; lia|].
          change (join [10] ([] :: l :: ls)) with (10 :: join [10] (l :: ls)).
          simpl length in *. lia.
      + destruct (splitlines (c2 :: s)) as [|l ls]; [simpl; lia|].
        assert (Hj : join [10] ((c :: l) :: ls) = c :: join [10] (l :: ls))
          by (destruct ls; reflexivity).
        rewrite Hj. simpl length in *. lia. }
  apply Hboth.
Qed.

End LineFacts.

(** ** More about strip_sensitive_lines *)

Section SanitizeMore.
Context `{Unicode}.

Lemma filter_all_pass {A} (P : A -> Prop) `{forall x, Decision (P x)}
    (l : list A) :
  Forall P l -> filter P l = l.
Proof.
  induction 1 as [|x l Hx _ IH]; [reflexivity|].
  rewrite filter_cons. destruct (decide (P x)); [|contradiction].
  rewrite IH. reflexivity.
Qed.

Lemma kept_lines_no_break (diff : str) :
  Forall no_break (filter (fun l => dropped l = false) (splitlines diff)).
Proof.
  apply Forall_forall. intros l Hl. apply list_elem_of_filter in Hl.
  destruct Hl as [_ Hl]. revert l Hl. apply Forall_forall.
  apply splitlines_no_break.
Qed.

Lemma kept_lines_pass (diff : str) :
  Forall (fun l => dropped l = false)
    (filter (fun l => dropped l = false) (splitlines diff)).
Proof.
  apply Forall_forall. intros l Hl. apply list_elem_of_filter in Hl.
  apply Hl.
Qed.

(** X1.  The result holds no line that the filter would leave out: read
    line by line again, every line passes both tests, so a second pass only
    joins the lines it finds. *)
Theorem sanitized_lines_all_pass (diff : str) :
  Forall (fun l => dropped l = false)
    (splitlines (strip_sensitive_lines diff))
  /\ strip_sensitive_lines (strip_sensitive_lines diff)
     = join [10] (splitlines (strip_sensitive_lines diff)).
Proof.
  assert (Hpass : Forall (fun l => dropped l = false)
                    (splitlines (strip_sensitive_lines diff))).
  { rewrite strip_sensitive_lines_filter.
    pose proof (kept_lines_pass diff) as Hk.
    destruct (splitlines_join_cases _ (kept_lines_no_break diff))
      as [-> | [front [Hfront ->]]]; [exact Hk|].
    rewrite Hfront in Hk. apply Forall_app in Hk. apply Hk. }
  split; [exact Hpass|].
  rewrite (strip_sensitive_lines_filter (strip_sensitive_lines diff)).
  rewrite filter_all_pass by exact Hpass. reflexivity.
Qed.

(** X2.  The result is never longer than the diff. *)
Theorem sanitized_never_longer (diff : str) :
  le (length (strip_sensitive_lines diff)) (length diff).
Proof.
  rewrite strip_sensitive_lines_filter.
  pose proof (length_join_splitlines diff) as Hall.
  pose proof (total_length_filter [10] (fun l => dropped l = false)
                (splitlines diff)) as Hf.
  rewrite length_join in Hall |- *. lia.
Qed.

(** X3.  Only a line that starts with [+], or a [---] line whose lowered
    text contains [.env], is ever left out.  So every diff none of whose
    lines (as [splitlines] finds them) starts with [+] or [---] comes back
    with all its lines, joined by LF: each line boundary has become one LF
    and the boundary after the last line is gone.  For lines that hold no
    line boundary themselves (removed lines, context lines, hunk and
    [diff --git] headers, whatever they contain): when each is ended by LF
    the result is the diff without its final LF; when they are joined by LF
    and the last one is not empty the result is the diff itself. *)
Theorem only_added_and_env_header_lines_dropped :
  (forall line,
     dropped line = true ->
     startswith (py "+") line = true
     \/ (startswith (py "---") line = true
         /\ contains (py ".env") (lower line) = true))
  /\ (forall diff,
        Forall (fun l => startswith (py "+") l = false
                         /\ startswith (py "---") l = false)
          (splitlines diff) ->
        strip_sensitive_lines diff = join [10] (splitlines diff))
  /\ (forall lines,
        Forall no_break lines ->
        Forall (fun l => startswith (py "+") l = false
                         /\ startswith (py "---") l = false) lines ->
        strip_sensitive_lines (unlines lines) = join [10] lines
        /\ (lines <> [] -> unlines lines = join [10] lines ++ [10]))
  /\ (forall lines,
        Forall no_break lines -> last lines <> Some [] ->
        Forall (fun l => startswith (py "+") l = false
                         /\ startswith (py "---") l = false) lines ->
        strip_sensitive_lines (join [10] lines) = join [10] lines).
Proof.
  assert (Hdrop : forall line,
            dropped line = true ->
            startswith (py "+") line = true
            \/ (startswith (py "---") line = true
                /\ contains (py ".env") (lower line) = true)).
  { intros line Hd. unfold dropped in Hd. apply orb_true_iff in Hd.
    destruct Hd as [Hs | He].
    - left. unfold secret_added in Hs. apply andb_true_iff in Hs. apply Hs.
    - unfold env_header in He. apply andb_true_iff in He.
      destruct He as [Henv Hhead]. apply orb_true_iff in Hhead.
      destruct Hhead as [Hp | Hm]; [left|right; split; assumption].
      change (py "+++") with (43 :: py "++") in Hp.
      apply startswith_cons in Hp. destruct Hp as [s' [-> _]]. reflexivity. }
  assert (Hkeep : forall lines : list str,
            Forall (fun l => startswith (py "+") l = false
                             /\ startswith (py "---") l = false) lines ->
            filter (fun l => dropped l = false) lines = lines).
  { intros lines Hnone. apply filter_all_pass.
    eapply Forall_impl; [exact Hnone|]. intros l [Hp Hm].
    destruct (dropped l) eqn:Hd; [|reflexivity].
    destruct (Hdrop l Hd) as [Hp' | [Hm' _]]; congruence. }
  split; [exact Hdrop|]. split; [|split].
  - intros diff Hnone.
    rewrite strip_sensitive_lines_filter, Hkeep by exact Hnone. reflexivity.
  - intros lines Hnb Hnone. split.
    + rewrite strip_sensitive_lines_filter, splitlines_unlines by exact Hnb.
      rewrite Hkeep by exact Hnone. reflexivity.
    + clear. induction lines as [|l [|l' rest] IH]; intros Hne.
      * now contradiction Hne.
      * simpl. rewrite app_nil_r. reflexivity.
      * change (unlines (l :: l' :: rest))
          with ((l ++ [10]) ++ unlines (l' :: rest)).
        rewrite IH by discriminate.
        change (join [10] (l :: l' :: rest))
          with (l ++ [10] ++ join [10] (l' :: rest)).
        rewrite <- !app_assoc. reflexivity.
  - intros lines Hnb Hlast Hnone.
    rewrite strip_sensitive_lines_join by assumption.
    rewrite Hkeep by exact Hnone. reflexivity.
Qed.

(** X4.  On ASCII text the keywords are found in any letter case: an added
    line that contains a spelling of a keyword, upper or lower or mixed, is
    left out. *)
Theorem keyword_in_any_case_dropped
    (kw spelled pre post : str) (filtered : list str) :
  In kw keywords ->
  map ascii_lower spelled = kw ->
  is_ascii (pre ++ spelled ++ post) ->
  secret_added (43 :: pre ++ spelled ++ post) = true
  /\ sanitize_step filtered (43 :: pre ++ spelled ++ post) = filtered.
Proof.
  intros Hkw Hsp Hascii.
  assert (Hs : secret_added (43 :: pre ++ spelled ++ post) = true).
  { apply (keyword_secret_added kw); [exact Hkw| |reflexivity].
    rewrite lower_ascii by (constructor; [reflexivity|exact Hascii]).
    change (map ascii_lower (43 :: pre ++ spelled ++ post))
      with (43 :: map ascii_lower (pre ++ spelled ++ post)).
    rewrite !map_app. subst kw.
    apply (contains_app (map ascii_lower spelled) (43 :: map ascii_lower pre)). }
  split; [exact Hs|]. unfold sanitize_step. rewrite Hs. reflexivity.
Qed.

End SanitizeMore.

Lemma only_added_and_env_header_lines_dropped_witness :
  Forall no_break [py "diff --git a/.env b/.env"; py "-token = 1"]
  /\ last [py "diff --git a/.env b/.env"; py "-token = 1"] <> Some []
  /\ Forall (fun l => startswith (py "+") l = false
                      /\ startswith (py "---") l = false)
       [py "diff --git a/.env b/.env"; py "-token = 1"]
  /\ @strip_sensitive_lines AsciiOnly
       (join [10] [py "diff --git a/.env b/.env"; py "-token = 1"])
     = join [10] [py "diff --git a/.env b/.env"; py "-token = 1"]
  /\ @strip_sensitive_lines AsciiOnly
       (py "diff --git a/.env b/.env" ++ [10] ++ py "-token = 1" ++ [10])
     = py "diff --git a/.env b/.env" ++ [10] ++ py "-token = 1".
Proof.
  assert (Hnb : Forall no_break
                  [py "diff --git a/.env b/.env"; py "-token = 1"])
    by (repeat constructor).
  assert (Hlast : last [py "diff --git a/.env b/.env"; py "-token = 1"]
                  <> Some []) by discriminate.
  assert (Hnone : Forall (fun l => startswith (py "+") l = false
                                   /\ startswith (py "---") l = false)
                    [py "diff --git a/.env b/.env"; py "-token = 1"])
    by (repeat constructor).
  do 3 (split; [assumption|]).
  destruct (@only_added_and_env_header_lines_dropped AsciiOnly)
    as (_ & _ & Hended & Hjoined).
  split; [exact (Hjoined _ Hnb Hlast Hnone)|].
  exact (proj1 (Hended _ Hnb Hnone)).
Defined.

Lemma keyword_in_any_case_dropped_witness :
  In (py "api_key") keywords
  /\ map ascii_lower (py "Api_KEY") = py "api_key"
  /\ is_ascii (py "my" ++ py "Api_KEY" ++ py " = 1")
  /\ @secret_added AsciiOnly (43 :: py "my" ++ py "Api_KEY" ++ py " = 1")
     = true
  /\ @sanitize_step AsciiOnly [py "+a"]
       (43 :: py "my" ++ py "Api_KEY" ++ py " = 1")
     = [py "+a"].
Proof.
  assert (Hkw : In (py "api_key") keywords) by (left; reflexivity).
  assert (Hsp : map ascii_lower (py "Api_KEY") = py "api_key")
    by reflexivity.
  assert (Hascii : is_ascii (py "my" ++ py "Api_KEY" ++ py " = 1"))
    by (repeat constructor).
  do 3 (split; [assumption|]).
  exact (@keyword_in_any_case_dropped AsciiOnly _ _ _ _ [py "+a"]
           Hkw Hsp Hascii).
Defined.

(** ** More about the normalisation of messages *)

Section MessageFacts.

Lemma splitlines_app_break_free (t m : str) :
  no_break t -> t <> [] ->
  exists ls l, splitlines (m ++ t) = ls ++ [l ++ t].
Proof.
  intros Ht Hne.
  assert (Hboth :
    (exists ls l, splitlines (m ++ t) = ls ++ [l ++ t])
    /\ forall c, exists ls l, splitlines (c :: m ++ t) = ls ++ [l ++ t]).
  { induction m as [|c2 m IH].
    - assert (H0 : exists ls l, splitlines ([] ++ t) = ls ++ [l ++ t]).
      { exists [], []. simpl. apply splitlines_single; assumption. }
      split; [exact H0|]. intros c. simpl app.
      destruct t as [|c2 t']; [contradiction|].
      assert (Hc2 : is_linebreak c2 = false) by (inversion Ht; assumption).
      change (splitlines (c :: c2 :: t')) with
        (if is_linebreak c then
           if (c =? 13) && (c2 =? 10) then [] :: splitlines t'
           else [] :: splitlines (c2 :: t')
         else match splitlines (c2 :: t') with
              | [] => [[c]]
              | l :: ls => (c :: l) :: ls
              end).
      rewrite (splitlines_single (c2 :: t')) by assumption.
      destruct (is_linebreak c).
      + assert (Hlf : (c2 =? 10) = false).
        { destruct (N.eqb_spec c2 10) as [->|]; [discriminate|reflexivity]. }
        rewrite Hlf, andb_false_r. exists [[]], []. reflexivity.
      + exists [], [c]. reflexivity.
    - destruct IH as [IH1 IH2]. split; [apply IH2|].
      intros c. specialize (IH2 c2).
      change (splitlines (c :: (c2 :: m) ++ t)) with
        (if is_linebreak c then
           if (c =? 13) && (c2 =? 10) then [] :: splitlines (m ++ t)
           else [] :: splitlines (c2 :: m ++ t)
         else match splitlines (c2 :: m ++ t) with
              | [] => [[c]]
              | l :: ls => (c :: l) :: ls
              end).
      destruct (is_linebreak c).
      + destruct ((c =? 13) && (c2 =? 10)).
        * destruct IH1 as (ls & l & ->). exists ([] :: ls), l. reflexivity.
        * destruct IH2 as (ls & l & ->). exists ([] :: ls), l. reflexivity.
      + destruct IH2 as (ls & l & ->). destruct ls as [|x ls].
        * exists [], (c :: l). reflexivity.
        * exists ((c :: x) :: ls), l. reflexivity. }
  apply Hboth.
Qed.

Lemma join_keeps_suffix (sep t l : list N) (ls : list (list N)) :
  exists front, join sep (ls ++ [l ++ t]) = front ++ t.
Proof.
  induction ls as [|x ls [front IH]].
  - exists l. reflexivity.
  - exists (x ++ sep ++ front).
    assert (Hj : join sep ((x :: ls) ++ [l ++ t])
                 = x ++ sep ++ join sep (ls ++ [l ++ t]))
      by (destruct ls; reflexivity).
    rewrite Hj, IH, <- !app_assoc. reflexivity.
Qed.

Lemma strip_by_keeps_suffix (p : char -> bool) (front t : str) :
  t <> [] -> starts_by p t = false -> ends_by p t = false ->
  exists front', strip_by p (front ++ t) = front' ++ t.
Proof.
  intros Hne Hs He.
  assert (Hl : exists front', lstrip_by p (front ++ t) = front' ++ t).
  { induction front as [|c front [front' IH]].
    - exists []. apply lstrip_by_id. exact Hs.
    - simpl. destruct (p c); [exists front'; exact IH|].
      exists (c :: front). reflexivity. }
  destruct Hl as [front' Hl]. exists front'. unfold strip_by. rewrite Hl.
  apply rstrip_by_id. rewrite ends_by_app.
  destruct t; [contradiction|exact He].
Qed.

(** X5.  With the flag set the result always ends with [(truncated diff)],
    whatever the model returned.  The note is appended before the quotes
    are stripped, so of the quotes around a quoted text only the opening
    one goes. *)
Theorem truncated_message_ends_with_note :
  (forall message,
     exists front, post_process true message = front ++ py "(truncated diff)")
  /\ (forall body,
        no_break body -> bare body -> body <> [] ->
        post_process true ([34] ++ body ++ [34])
        = body ++ [34] ++ py " (truncated diff)").
Proof.
  split.
  - intros message.
    change (post_process true message)
      with (strip_chars [39] (strip_chars [34] (strip (join [32]
              (splitlines (message ++ py " (truncated diff)")))))).
    destruct (splitlines_app_break_free (py " (truncated diff)") message)
      as (ls & l & ->); [repeat constructor|discriminate|].
    destruct (join_keeps_suffix [32] (py " (truncated diff)") l ls)
      as [front ->].
    change (py " (truncated diff)") with ([32] ++ py "(truncated diff)").
    rewrite app_assoc. unfold strip, strip_chars.
    destruct (strip_by_keeps_suffix isspace (front ++ [32])
                (py "(truncated diff)")) as [f1 ->];
      [discriminate|reflexivity|reflexivity|].
    destruct (strip_by_keeps_suffix (fun c => mem c [34]) f1
                (py "(truncated diff)")) as [f2 ->];
      [discriminate|reflexivity|reflexivity|].
    apply strip_by_keeps_suffix; [discriminate|reflexivity|reflexivity].
  - intros body Hnb (Hws & Hdq & Hsq) Hne.
    change (post_process true ([34] ++ body ++ [34]))
      with (strip_chars [39] (strip_chars [34] (strip (join [32]
              (splitlines (([34] ++ body ++ [34])
                           ++ py " (truncated diff)")))))).
    assert (Hnote : no_break (py " (truncated diff)")) by (repeat constructor).
    rewrite join_splitlines_no_break.
    2: { repeat (apply Forall_app; split); try assumption; repeat constructor. }
    assert (Hends : forall p, p 41 = false ->
              forall front, ends_by p (front ++ py " (truncated diff)") = false).
    { intros p Hp front. rewrite ends_by_app. exact Hp. }
    unfold strip, strip_chars.
    rewrite (strip_by_id isspace).
    2: reflexivity.
    2: { rewrite <- !app_assoc, !app_assoc. apply Hends. reflexivity. }
    assert (Hl : lstrip_by (fun c => mem c [34])
                   (([34] ++ body ++ [34]) ++ py " (truncated diff)")
                 = body ++ [34] ++ py " (truncated diff)").
    { rewrite <- app_assoc.
      rewrite (lstrip_by_all (fun c => mem c [34]) [34]) by reflexivity.
      rewrite <- app_assoc.
      apply lstrip_by_keeps_prefix; [exact Hne|apply Hdq]. }
    unfold strip_by at 2. rewrite Hl.
    rewrite (rstrip_by_id (fun c => mem c [34])).
    2: { rewrite !app_assoc. apply Hends. reflexivity. }
    apply strip_by_id.
    + rewrite starts_by_app. destruct body; [contradiction|apply Hsq].
    + rewrite !app_assoc. apply Hends. reflexivity.
Qed.

(** X6.  The edited message, made one line: it holds no line boundary, has
    no white space at either end, and making it one line again changes
    nothing. *)
Theorem one_line_normal_form (final_msg : str) :
  no_break (one_line final_msg)
  /\ edge_free isspace (one_line final_msg)
  /\ one_line (one_line final_msg) = one_line final_msg.
Proof.
  assert (Hnb : no_break (one_line final_msg)).
  { unfold one_line, strip. apply strip_by_Forall.
    apply no_break_join_space, splitlines_no_break. }
  split; [exact Hnb|]. split.
  - unfold one_line, strip. split; [apply strip_by_starts|apply strip_by_ends].
  - unfold one_line at 1. rewrite join_splitlines_no_break by exact Hnb.
    unfold one_line, strip. apply strip_by_idem.
Qed.

End MessageFacts.

Lemma truncated_message_ends_with_note_witness :
  no_break (py "fix: x") /\ bare (py "fix: x") /\ py "fix: x" <> []
  /\ post_process true ([34] ++ py "fix: x" ++ [34])
     = py "fix: x" ++ [34] ++ py " (truncated diff)".
Proof.
  assert (Hnb : no_break (py "fix: x")) by (repeat constructor).
  assert (Hbare : bare (py "fix: x")) by (repeat split).
  assert (Hne : py "fix: x" <> []) by discriminate.
  do 3 (split; [assumption|]).
  exact (proj2 truncated_message_ends_with_note _ Hnb Hbare Hne).
Defined.

(** ** Values returned and statuses of exit *)

(** Every value [m] returns satisfies [Q]. *)
Definition returns {A} (Q : A -> Prop) (m : M A) : Prop :=
  forall st a st', m st = (Ret a, st') -> Q a.

(** [m] leaves through [sys.exit] with status 1 only. *)
Definition exits_with_1 {A} (m : M A) : Prop :=
  forall st code st', m st = (SysExit code, st') -> code = 1%Z.

Section Outcomes.
Context {A B : Type}.

Lemma returns_ret (Q : A -> Prop) (a : A) : Q a -> returns Q (ret a).
Proof. intros Ha st a' st' Heq. inversion Heq; subst. exact Ha. Qed.

Lemma returns_never (Q : A -> Prop) (m : M A) :
  (forall st a st', m st <> (Ret a, st')) -> returns Q m.
Proof. intros Hm st a st' Heq. destruct (Hm _ _ _ Heq). Qed.

Lemma returns_bind (Q : B -> Prop) (m : M A) (k : A -> M B) :
  (forall a, returns Q (k a)) -> returns Q (bind m k).
Proof.
  intros Hk st b st' Heq. unfold bind in Heq.
  destruct (m st) as [[a | e | code] st1]; try discriminate.
  exact (Hk a st1 b st' Heq).
Qed.

Lemma returns_try_except (Q : A -> Prop) (body : M A)
    (catches : exn -> bool) (handler : exn -> M A) :
  returns Q body -> (forall e, returns Q (handler e)) ->
  returns Q (try_except body catches handler).
Proof.
  intros Hb Hh st a st' Heq. unfold try_except in Heq.
  destruct (body st) as [[a1 | e | code] st1] eqn:Hbody; try discriminate.
  - inversion Heq; subst. exact (Hb _ _ _ Hbody).
  - destruct (catches e); [|discriminate]. exact (Hh e st1 a st' Heq).
Qed.

Lemma emits_only_bind_returns (P : event -> Prop) (Q : A -> Prop)
    (m : M A) (k : A -> M B) :
  emits_only P m -> returns Q m -> (forall a, Q a -> emits_only P (k a)) ->
  emits_only P (bind m k).
Proof.
  intros Hm Hq Hk st. unfold bind.
  destruct (Hm st) as [new1 [Hlog1 Hall1]].
  destruct (m st) as [[a | e | code] st1] eqn:Hrun; simpl in Hlog1;
    try (exists new1; split; assumption).
  destruct (Hk a (Hq _ _ _ Hrun) st1) as [new2 [Hlog2 Hall2]].
  exists (new2 ++ new1). split.
  - rewrite Hlog2, Hlog1. apply app_assoc.
  - apply Forall_app. split; assumption.
Qed.

Lemma exits_with_1_ret (a : A) : exits_with_1 (ret a).
Proof. intros st code st' Heq. discriminate. Qed.

Lemma exits_with_1_raise (e : exn) : exits_with_1 (@raise A e).
Proof. intros st code st' Heq. discriminate. Qed.

Lemma exits_with_1_sys_exit : exits_with_1 (@sys_exit A 1%Z).
Proof. intros st code st' Heq. inversion Heq. reflexivity. Qed.

Lemma exits_with_1_bind (m : M A) (k : A -> M B) :
  exits_with_1 m -> (forall a, exits_with_1 (k a)) ->
  exits_with_1 (bind m k).
Proof.
  intros Hm Hk st code st' Heq. unfold bind in Heq.
  destruct (m st) as [[a | e | c] st1] eqn:Hrun; try discriminate.
  - exact (Hk a st1 code st' Heq).
  - inversion Heq; subst. exact (Hm _ _ _ Hrun).
Qed.

Lemma exits_with_1_try_except (body : M A) (catches : exn -> bool)
    (handler : exn -> M A) :
  exits_with_1 body -> (forall e, exits_with_1 (handler e)) ->
  exits_with_1 (try_except body catches handler).
Proof.
  intros Hb Hh st code st' Heq. unfold try_except in Heq.
  destruct (body st) as [[a | e | c] st1] eqn:Hrun; try discriminate.
  - destruct (catches e); [|discriminate]. exact (Hh e st1 code st' Heq).
  - inversion Heq; subst. exact (Hb _ _ _ Hrun).
Qed.

Lemma exits_with_1_try_finally (body : M A) (final : M unit) :
  exits_with_1 body -> exits_with_1 final ->
  exits_with_1 (try_finally body final).
Proof.
  intros Hb Hf st code st' Heq. unfold try_finally in Heq.
  destruct (body st) as [r st1] eqn:Hrun.
  destruct (final st1) as [[[] | e | c] st2] eqn:Hfin.
  - inversion Heq; subst. exact (Hb _ _ _ Hrun).
  - discriminate.
  - inversion Heq; subst. exact (Hf _ _ _ Hfin).
Qed.

End Outcomes.

Lemma exits_with_1_emit (e : event) : exits_with_1 (emit e).
Proof. intros st code st' Heq. discriminate. Qed.

Lemma exits_with_1_get_files : exits_with_1 get_files.
Proof. intros st code st' Heq. discriminate. Qed.

Lemma exits_with_1_put_files (f : gmap str str) : exits_with_1 (put_files f).
Proof. intros st code st' Heq. discriminate. Qed.

Ltac exits :=
  repeat
    match goal with
    | |- exits_with_1 (bind _ _) => apply exits_with_1_bind; [|intros ?]
    | |- exits_with_1 (try_except _ _ _) =>
        apply exits_with_1_try_except; [|intros ?]
    | |- exits_with_1 (try_finally _ _) => apply exits_with_1_try_finally
    | |- exits_with_1 (emit _) => apply exits_with_1_emit
    | |- exits_with_1 (print _) => apply exits_with_1_emit
    | |- exits_with_1 (print_err _) => apply exits_with_1_emit
    | |- exits_with_1 (ret _) => apply exits_with_1_ret
    | |- exits_with_1 (raise _) => apply exits_with_1_raise
    | |- exits_with_1 (sys_exit _) => apply exits_with_1_sys_exit
    | |- exits_with_1 get_files => apply exits_with_1_get_files
    | |- exits_with_1 (put_files _) => apply exits_with_1_put_files
    | |- exits_with_1 (match ?x with _ => _ end) => destruct x
    end.

(** The environment [run] hands to the command. *)
Definition run_env (environ : gmap str str) : gmap str str :=
  setdefault (py "LC_ALL") (py "C.UTF-8")
    (setdefault (py "LANG") (py "C.UTF-8")
       (setdefault (py "GIT_PAGER") (py "cat") environ)).

(** ** The environment of the commands *)

Section EnvironmentFacts.

Lemma setdefault_set (k v : str) (d : gmap str str) :
  is_Some (setdefault k v d !! k).
Proof.
  unfold setdefault. destruct (d !! k) eqn:Hk.
  - rewrite Hk. eexists. reflexivity.
  - rewrite lookup_insert_eq. eexists. reflexivity.
Qed.

Lemma setdefault_unset (k v : str) (d : gmap str str) :
  d !! k = None -> setdefault k v d !! k = Some v.
Proof. intros Hk. unfold setdefault. rewrite Hk. apply lookup_insert_eq. Qed.

Lemma setdefault_keeps (k v k' x : str) (d : gmap str str) :
  d !! k' = Some x -> setdefault k v d !! k' = Some x.
Proof.
  intros Hk'. unfold setdefault. destruct (d !! k) eqn:Hk; [exact Hk'|].
  rewrite lookup_insert_ne; [exact Hk'|]. intros ->. congruence.
Qed.

Lemma setdefault_other (k v k' : str) (d : gmap str str) :
  k <> k' -> setdefault k v d !! k' = d !! k'.
Proof.
  intros Hne. unfold setdefault. destruct (d !! k); [reflexivity|].
  apply lookup_insert_ne. exact Hne.
Qed.

Lemma setdefault_id (k v : str) (d : gmap str str) :
  is_Some (d !! k) -> setdefault k v d = d.
Proof. intros [x Hx]. unfold setdefault. rewrite Hx. reflexivity. Qed.

(** [src/hook_utf8.py]: five defaults put into [os.environ], in the order
    of the file; the first two are also set before [main()] is called.
    (The re-configuration of the two streams that follows changes no
    variable.) *)
Definition hook_utf8 (environ : gmap str str) : gmap str str :=
  setdefault (py "LC_ALL") (py "C.UTF-8")
    (setdefault (py "LANG") (py "C.UTF-8")
       (setdefault (py "GIT_PAGER") (py "cat")
          (setdefault (py "PYTHONUTF8") (py "1")
             (setdefault (py "PYTHONIOENCODING") (py "utf-8") environ)))).

Definition hook_keys : list str :=
  [py "PYTHONIOENCODING"; py "PYTHONUTF8"; py "GIT_PAGER"; py "LANG";
   py "LC_ALL"].

(** X7.  The hook never changes a variable that is set, gives each of its
    five variables a value, leaves every other variable alone, changes
    nothing when run again, and after it the defaults of [run] have nothing
    left to add. *)
Theorem hook_utf8_defaults (environ : gmap str str) :
  (forall k v, environ !! k = Some v -> hook_utf8 environ !! k = Some v)
  /\ (forall k, In k hook_keys -> is_Some (hook_utf8 environ !! k))
  /\ (forall k, ~ In k hook_keys -> hook_utf8 environ !! k = environ !! k)
  /\ hook_utf8 (hook_utf8 environ) = hook_utf8 environ
  /\ run_env (hook_utf8 environ) = hook_utf8 environ.
Proof.
  assert (Hkeeps : forall k v,
            environ !! k = Some v -> hook_utf8 environ !! k = Some v).
  { intros k v Hk. unfold hook_utf8. do 5 apply setdefault_keeps. exact Hk. }
  assert (Hset : forall k, In k hook_keys -> is_Some (hook_utf8 environ !! k)).
  { intros k Hk. unfold hook_utf8. simpl in Hk.
    destruct Hk as [<-|[<-|[<-|[<-|[<-|[]]]]]];
      repeat first
        [ apply setdefault_set
        | match goal with
          | |- is_Some (setdefault ?a ?b ?d !! ?k) =>
              let Hin := fresh in
              assert (Hin : is_Some (d !! k));
              [|destruct Hin as [x Hx]; exists x;
                apply setdefault_keeps; exact Hx]
          end ]. }
  split; [exact Hkeeps|]. split; [exact Hset|]. split; [|split].
  - intros k Hk. unfold hook_utf8.
    rewrite !setdefault_other; [reflexivity|..];
      intros <-; apply Hk; simpl; tauto.
  - unfold hook_utf8 at 1.
    rewrite (setdefault_id (py "PYTHONIOENCODING"))
      by (apply Hset; simpl; tauto).
    rewrite (setdefault_id (py "PYTHONUTF8")) by (apply Hset; simpl; tauto).
    rewrite (setdefault_id (py "GIT_PAGER")) by (apply Hset; simpl; tauto).
    rewrite (setdefault_id (py "LANG")) by (apply Hset; simpl; tauto).
    apply setdefault_id. apply Hset. simpl. tauto.
  - unfold run_env.
    rewrite (setdefault_id (py "GIT_PAGER")) by (apply Hset; simpl; tauto).
    rewrite (setdefault_id (py "LANG")) by (apply Hset; simpl; tauto).
    apply setdefault_id. apply Hset. simpl. tauto.
Qed.

End EnvironmentFacts.

Lemma hook_utf8_defaults_witness :
  ({[ py "LANG" := py "pt_BR.UTF-8" ]} : gmap str str) !! py "LANG"
  = Some (py "pt_BR.UTF-8")
  /\ In (py "GIT_PAGER") hook_keys
  /\ ~ In (py "EDITOR") hook_keys
  /\ hook_utf8 {[ py "LANG" := py "pt_BR.UTF-8" ]} !! py "LANG"
     = Some (py "pt_BR.UTF-8")
  /\ is_Some (hook_utf8 {[ py "LANG" := py "pt_BR.UTF-8" ]} !! py "GIT_PAGER")
  /\ hook_utf8 {[ py "LANG" := py "pt_BR.UTF-8" ]} !! py "EDITOR" = None.
Proof.
  assert (Hl : ({[ py "LANG" := py "pt_BR.UTF-8" ]} : gmap str str)
               !! py "LANG" = Some (py "pt_BR.UTF-8"))
    by apply lookup_singleton_eq.
  assert (Hin : In (py "GIT_PAGER") hook_keys)
    by (right; right; left; reflexivity).
  assert (Hout : ~ In (py "EDITOR") hook_keys).
  { intros Hk. simpl in Hk.
    destruct Hk as [Hk|[Hk|[Hk|[Hk|[Hk|[]]]]]]; discriminate Hk. }
  destruct (hook_utf8_defaults {[ py "LANG" := py "pt_BR.UTF-8" ]})
    as (H1 & H2 & H3 & _).
  do 3 (split; [assumption|]).
  split; [exact (H1 _ _ Hl)|]. split; [exact (H2 _ Hin)|].
  rewrite (H3 _ Hout). apply lookup_singleton_ne. discriminate.
Defined.

(** ** The commands *)

Section CommandFacts.
Variable w : World.

Definition logged (e : event) (f : gmap str str) (st : state) : state :=
  {| files := f; log := e :: log st |}.

Lemma run_eq (cmd : list str) (check : bool) (st : state) :
  run w cmd check st
  = match subprocess_run w (run_env (environ w)) cmd (files st) with
    | SpawnFailed what =>
        (Raise (OSError what), logged (Subprocess cmd) (files st) st)
    | Spawned p f' =>
        (if check && negb (returncode p =? 0)%Z
         then Raise (CalledProcessError
                       (called_process_msg w cmd (returncode p)) (stderr p))
         else Ret p,
         logged (Subprocess cmd) f' st)
    end.
Proof.
  unfold run, bind, emit, get_files, put_files, raise, ret, run_env, logged.
  cbn [files log].
  destruct (subprocess_run _ _ _ _) as [p f'|what]; [|reflexivity].
  cbn [files log]. destruct (check && negb (returncode p =? 0)%Z); reflexivity.
Qed.

(** X8.  [run] starts the command in the environment of the script with
    [GIT_PAGER], [LANG] and [LC_ALL] given a value where they had none, and
    no variable that is set changed.  A command that cannot be started
    raises [OSError]; with [check], a status other than 0 raises
    [CalledProcessError] carrying the command's error text; otherwise the
    completed process is returned, whatever its status. *)
Theorem run_outcomes (cmd : list str) (check : bool) (st : state) :
  (forall k v,
     environ w !! k = Some v -> run_env (environ w) !! k = Some v)
  /\ (forall k,
        In k [py "GIT_PAGER"; py "LANG"; py "LC_ALL"] ->
        is_Some (run_env (environ w) !! k))
  /\ (forall what,
        subprocess_run w (run_env (environ w)) cmd (files st)
        = SpawnFailed what ->
        run w cmd check st
        = (Raise (OSError what), logged (Subprocess cmd) (files st) st))
  /\ (forall p f',
        subprocess_run w (run_env (environ w)) cmd (files st)
        = Spawned p f' ->
        check = true -> returncode p <> 0%Z ->
        run w cmd check st
        = (Raise (CalledProcessError
                    (called_process_msg w cmd (returncode p)) (stderr p)),
           logged (Subprocess cmd) f' st))
  /\ (forall p f',
        subprocess_run w (run_env (environ w)) cmd (files st)
        = Spawned p f' ->
        check = false \/ returncode p = 0%Z ->
        run w cmd check st = (Ret p, logged (Subprocess cmd) f' st)).
Proof.
  split; [|split; [|split; [|split]]].
  - intros k v Hk. unfold run_env. do 3 apply setdefault_keeps. exact Hk.
  - intros k Hk. unfold run_env. simpl in Hk.
    destruct Hk as [<-|[<-|[<-|[]]]].
    + destruct (setdefault_set (py "GIT_PAGER") (py "cat") (environ w))
        as [x Hx].
      exists x. do 2 apply setdefault_keeps. exact Hx.
    + destruct (setdefault_set (py "LANG") (py "C.UTF-8")
                  (setdefault (py "GIT_PAGER") (py "cat") (environ w)))
        as [x Hx].
      exists x. apply setdefault_keeps. exact Hx.
    + apply setdefault_set.
  - intros what Hrun. rewrite run_eq, Hrun. reflexivity.
  - intros p f' Hrun -> Hcode. rewrite run_eq, Hrun.
    destruct (Z.eqb_spec (returncode p) 0); [contradiction|reflexivity].
  - intros p f' Hrun Hok. rewrite run_eq, Hrun.
    destruct Hok as [-> | ->]; [reflexivity|destruct check; reflexivity].
Qed.

Definition rev_parse : list str :=
  [py "git"; py "rev-parse"; py "--show-toplevel"].

(** X9.  [get_repo_root]: when [git rev-parse] ends with a status other
    than 0 the function writes its notice to the error stream and leaves
    with status 1; when it ends with 0 the function returns the [Path] made
    of what git wrote, stripped (so without the line feed at its end); when
    git cannot be started the [OSError] is not caught. *)
Theorem get_repo_root_outcomes (st : state) :
  (forall p f',
     subprocess_run w (run_env (environ w)) rev_parse (files st)
     = Spawned p f' ->
     returncode p <> 0%Z ->
     get_repo_root w st
     = (SysExit 1%Z,
        logged (Stderr (utf8 " Não é um repositório git.")) f'
          (logged (Subprocess rev_parse) f' st)))
  /\ (forall p f',
        subprocess_run w (run_env (environ w)) rev_parse (files st)
        = Spawned p f' ->
        returncode p = 0%Z ->
        get_repo_root w st
        = (Ret (Path w (strip (stdout p))),
           logged (Subprocess rev_parse) f' st))
  /\ (forall what,
        subprocess_run w (run_env (environ w)) rev_parse (files st)
        = SpawnFailed what ->
        get_repo_root w st
        = (Raise (OSError what),
           logged (Subprocess rev_parse) (files st) st)).
Proof.
  assert (Heq : get_repo_root w st
                = match run w rev_parse true st with
                  | (Ret out, st') => (Ret (Path w (strip (stdout out))), st')
                  | (Raise e, st') =>
                      if is_CalledProcessError e
                      then (SysExit 1%Z,
                            logged (Stderr (utf8 " Não é um repositório git."))
                              (files st') st')
                      else (Raise e, st')
                  | (SysExit c, st') => (SysExit c, st')
                  end).
  { unfold get_repo_root, try_except, bind. fold rev_parse.
    destruct (run w rev_parse true st) as [[out | e | c] st']; reflexivity. }
  rewrite Heq, run_eq. repeat apply conj.
  - intros p f' -> Hcode. cbn [andb].
    destruct (Z.eqb_spec (returncode p) 0); [contradiction|reflexivity].
  - intros p f' -> ->. reflexivity.
  - intros what ->. reflexivity.
Qed.

Definition diff_command (staged : bool) : list str :=
  if staged
  then [py "git"; py "diff"; py "--staged"; py "--no-color";
        py "--unified=0"; py "--no-ext-diff"; py "--text"]
  else [py "git"; py "diff"; py "--no-color";
        py "--unified=0"; py "--no-ext-diff"; py "--text"].

(** X10.  [get_diff]: the command is [git diff] with [--staged] put right
    after [diff] in staged mode and left out otherwise.  When it ends with a
    status other than 0 the function writes git's error text to the error
    stream and leaves with status 1; when it ends with 0 the function
    returns git's output as it is, not stripped; when git cannot be started
    the [OSError] is not caught. *)
Theorem get_diff_outcomes (staged : bool) (st : state) :
  (In (py "--staged") (diff_command staged) <-> staged = true)
  /\ (forall p f',
        subprocess_run w (run_env (environ w)) (diff_command staged)
          (files st) = Spawned p f' ->
        returncode p <> 0%Z ->
        get_diff w staged st
        = (SysExit 1%Z,
           logged (Stderr (stderr p)) f'
             (logged (Subprocess (diff_command staged)) f' st)))
  /\ (forall p f',
        subprocess_run w (run_env (environ w)) (diff_command staged)
          (files st) = Spawned p f' ->
        returncode p = 0%Z ->
        get_diff w staged st
        = (Ret (stdout p), logged (Subprocess (diff_command staged)) f' st))
  /\ (forall what,
        subprocess_run w (run_env (environ w)) (diff_command staged)
          (files st) = SpawnFailed what ->
        get_diff w staged st
        = (Raise (OSError what),
           logged (Subprocess (diff_command staged)) (files st) st)).
Proof.
  split.
  - destruct staged; simpl; split; try tauto; try discriminate.
    intros Hin.
    repeat (destruct Hin as [Hin|Hin]; [discriminate Hin|]). destruct Hin.
  - assert (Heq : get_diff w staged st
                  = try_except
                      (bind (run w (diff_command staged) true)
                         (fun out => ret (stdout out)))
                      is_CalledProcessError
                      (fun e =>
                         match e with
                         | CalledProcessError _ err =>
                             bind (print_err err) (fun _ => sys_exit 1%Z)
                         | _ => raise e
                         end) st)
      by (destruct staged; reflexivity).
    assert (Heq' : get_diff w staged st
                   = match run w (diff_command staged) true st with
                     | (Ret out, st') => (Ret (stdout out), st')
                     | (Raise (CalledProcessError _ err), st') =>
                         (SysExit 1%Z, logged (Stderr err) (files st') st')
                     | (Raise e, st') => (Raise e, st')
                     | (SysExit c, st') => (SysExit c, st')
                     end).
    { rewrite Heq. unfold try_except, bind.
      destruct (run w (diff_command staged) true st)
        as [[out | [] | c] st']; reflexivity. }
    rewrite Heq', run_eq. repeat apply conj.
    + intros p f' -> Hcode. cbn [andb].
      destruct (Z.eqb_spec (returncode p) 0); [contradiction|reflexivity].
    + intros p f' -> ->. reflexivity.
    + intros what ->. reflexivity.
Qed.

End CommandFacts.

(** ** Whole runs, further *)

(** Splits a goal [emits_only P m] along the structure of [m]; what is
    left are the events, to be shown to satisfy [P]. *)
Ltac emits :=
  repeat
    match goal with
    | |- emits_only _ (bind _ _) => apply emits_only_bind; [|intros ?]
    | |- emits_only _ (try_except _ _ _) =>
        apply emits_only_try_except; [|intros ?]
    | |- emits_only _ (try_finally _ _) => apply emits_only_try_finally
    | |- emits_only _ (emit _) => apply emits_only_emit
    | |- emits_only _ (print _) => apply emits_only_emit
    | |- emits_only _ (print_err _) => apply emits_only_emit
    | |- emits_only _ (ret _) => apply emits_only_ret
    | |- emits_only _ (raise _) => apply emits_only_raise
    | |- emits_only _ (sys_exit _) => apply emits_only_sys_exit
    | |- emits_only _ get_files => apply emits_only_get_files
    | |- emits_only _ (put_files _) => apply emits_only_put_files
    | |- emits_only _ (match ?x with _ => _ end) => destruct x
    end.

Definition staged_listing : list str :=
  [py "git"; py "diff"; py "--name-only"; py "--staged"].

(** What the script may do while it retrieves the diff. *)
Definition retrieval_event (unstaged : bool) (e : event) : Prop :=
  match e with
  | Subprocess argv =>
      argv = rev_parse \/ argv = diff_command (negb unstaged)
      \/ (unstaged = false /\ argv = staged_listing)
  | Chdir _ | Stdout _ | Stderr _ => True
  | _ => False
  end.

Section RunsMore.
Context `{Unicode}.
Variable w : World.

Lemma run_emits_event (P : event -> Prop) (cmd : list str) (check : bool) :
  P (Subprocess cmd) -> emits_only P (run w cmd check).
Proof. intros Hcmd. unfold run. emits. exact Hcmd. Qed.

(** X11.  Up to the retrieval of the diff the script starts nothing but
    [git rev-parse --show-toplevel], in staged mode the listing of staged
    files, and the one [git diff] of the chosen mode; besides that it only
    changes directory and prints.  With [--unstaged] no command carrying
    [--staged] is started. *)
Theorem retrieve_diff_commands (args : Args) :
  emits_only (retrieval_event (unstaged args)) (retrieve_diff w args)
  /\ (unstaged args = true ->
      emits_only
        (fun e => forall argv,
                    e = Subprocess argv -> ~ In (py "--staged") argv)
        (retrieve_diff w args)).
Proof.
  assert (Hev : emits_only (retrieval_event (unstaged args))
                  (retrieve_diff w args)).
  { unfold retrieve_diff, get_repo_root, chdir, get_diff.
    destruct (unstaged args); cbn [negb]; emits;
      try (apply run_emits_event); cbn; auto. }
  split; [exact Hev|]. intros Hu.
  eapply emits_only_weaken; [|exact Hev]. rewrite Hu.
  intros e He argv -> Hin. cbn in He.
  destruct He as [-> | [-> | [Hf _]]]; [| |discriminate];
    cbn in Hin;
    repeat (destruct Hin as [Hin|Hin]; [discriminate Hin|]); destruct Hin.
Qed.

Lemma cap_prefix (max_chars : Z) (s : str) :
  exists rest,
    s = fst (cap max_chars s) ++ rest
    /\ ((0 <= max_chars)%Z -> (len (fst (cap max_chars s)) <= max_chars)%Z).
Proof.
  unfold cap, slice_to, len.
  destruct (Z.gtb_spec (Z.of_nat (length s)) max_chars) as [Hgt|Hle].
  - destruct (Z.leb_spec 0 max_chars) as [Hpos|Hneg]; cbn [fst].
    + exists (drop (Z.to_nat max_chars) s). split.
      * symmetry. apply take_drop.
      * intros _. rewrite length_take. lia.
    + exists (drop (Z.to_nat (Z.of_nat (length s) + max_chars)) s). split.
      * symmetry. apply take_drop.
      * lia.
  - exists []. cbn [fst]. split; [symmetry; apply app_nil_r|lia].
Qed.

(** What the model may be asked. *)
Definition prompt_event (args : Args) (diff : str) (e : event) : Prop :=
  forall m p,
    e = Generate m p ->
    m = model args
    /\ exists d rest,
         p = PROMPT_TEMPLATE_format (lang args) (ctype args) d
         /\ strip_sensitive_lines diff = d ++ rest
         /\ ((0 <= MAX_DIFF_CHARS w)%Z -> (len d <= MAX_DIFF_CHARS w)%Z).

(** X12.  Whatever the world answers, a prompt that goes to the model is
    the template filled with the language and the type of the command line
    and with a beginning of the sanitised diff, never the raw diff; with a
    maximum that is not negative that beginning is at most the maximum
    long; and the model asked is the one of the command line. *)
Theorem model_sees_sanitized_capped_diff (args : Args) (diff : str) :
  emits_only (prompt_event args diff) (final_message w args diff).
Proof.
  unfold final_message.
  destruct (negb (truthy (strip diff))).
  { emits; intros m p Heq; discriminate Heq. }
  destruct (cap_prefix (MAX_DIFF_CHARS w) (strip_sensitive_lines diff))
    as (rest & Hrest & Hlen).
  destruct (cap (MAX_DIFF_CHARS w) (strip_sensitive_lines diff))
    as [d truncated].
  cbn [fst] in Hrest, Hlen.
  unfold ensure_gemini_key, call_gemini, editor_edit, os_remove.
  emits; intros m p Heq; try discriminate Heq.
  inversion Heq; subst m p. split; [reflexivity|].
  exists d, rest. repeat split; assumption.
Qed.

End RunsMore.

Section RunsEnd.
Context `{Unicode}.
Variable w : World.

Lemma run_exits (cmd : list str) (check : bool) :
  exits_with_1 (run w cmd check).
Proof. unfold run. exits. Qed.

Lemma retrieve_diff_exits (args : Args) : exits_with_1 (retrieve_diff w args).
Proof.
  unfold retrieve_diff, get_repo_root, chdir, get_diff.
  exits; apply run_exits.
Qed.

Lemma final_message_exits (args : Args) (diff : str) :
  exits_with_1 (final_message w args diff).
Proof.
  unfold final_message, ensure_gemini_key, call_gemini, editor_edit,
    os_remove.
  exits.
Qed.

Lemma deliver_exits (args : Args) (final_msg : str) :
  exits_with_1 (deliver w args final_msg).
Proof. unfold deliver. exits. apply run_exits. Qed.

Lemma main_exits (args : Args) : exits_with_1 (main w args).
Proof.
  unfold main. exits;
    [apply retrieve_diff_exits|apply final_message_exits|apply deliver_exits].
Qed.

Lemma one_line_no_break (s : str) : no_break (one_line s).
Proof.
  unfold one_line, strip. apply strip_by_Forall.
  apply no_break_join_space, splitlines_no_break.
Qed.

Lemma one_line_trimmed (s : str) : edge_free isspace (one_line s).
Proof.
  unfold one_line, strip. split; [apply strip_by_starts|apply strip_by_ends].
Qed.

(** A message fit for a commit: not empty, on one line, trimmed. *)
Definition fit_message (m : str) : Prop :=
  m <> [] /\ no_break m /\ edge_free isspace m.

Lemma final_message_fit (args : Args) (diff : str) :
  returns fit_message (final_message w args diff).
Proof.
  unfold final_message.
  destruct (negb (truthy (strip diff))).
  { apply returns_bind. intros _ st a st' Heq. discriminate Heq. }
  destruct (cap (MAX_DIFF_CHARS w) (strip_sensitive_lines diff))
    as [d truncated].
  repeat (apply returns_bind; intros ?).
  destruct (negb (truthy (one_line _))) eqn:Hempty.
  - apply returns_bind. intros _ st a' st' Heq. discriminate Heq.
  - apply returns_ret. split; [|split].
    + intros Hnil. rewrite Hnil in Hempty. discriminate Hempty.
    + apply one_line_no_break.
    + apply one_line_trimmed.
Qed.

Lemma bind_Ret {A B} (m : M A) (k : A -> M B) (st : state) (a : A)
    (st' : state) :
  m st = (Ret a, st') -> bind m k st = k a st'.
Proof. intros Hm. unfold bind. rewrite Hm. reflexivity. Qed.

Lemma bind_Raise {A B} (m : M A) (k : A -> M B) (st : state) (e : exn)
    (st' : state) :
  m st = (Raise e, st') -> bind m k st = (Raise e, st').
Proof. intros Hm. unfold bind. rewrite Hm. reflexivity. Qed.

Lemma bind_SysExit {A B} (m : M A) (k : A -> M B) (st : state) (code : Z)
    (st' : state) :
  m st = (SysExit code, st') -> bind m k st = (SysExit code, st').
Proof. intros Hm. unfold bind. rewrite Hm. reflexivity. Qed.

Lemma ensure_gemini_key_set (c : char) (key : str) (st : state) :
  getenv w (py "GOOGLE_API_KEY") = Some (c :: key) ->
  ensure_gemini_key w st = (Ret tt, st).
Proof. intros Hkey. unfold ensure_gemini_key. rewrite Hkey. reflexivity. Qed.

(** [main], one part after the other. *)
Lemma main_eq (args : Args) (st : state) :
  main w args st
  = match retrieve_diff w args st with
    | (Ret diff, st1) =>
        match final_message w args diff st1 with
        | (Ret final_msg, st2) => deliver w args final_msg st2
        | (Raise e, st2) => (Raise e, st2)
        | (SysExit code, st2) => (SysExit code, st2)
        end
    | (Raise e, st1) => (Raise e, st1)
    | (SysExit code, st1) => (SysExit code, st1)
    end.
Proof. reflexivity. Qed.

(** Without a key ([GOOGLE_API_KEY] unset or empty) [main] on parsed
    values ends with status 1, and its log holds neither a call of the
    model nor a commit. *)
Lemma main_missing_key (args : Args) (st : state) :
  getenv w (py "GOOGLE_API_KEY") = None
  \/ getenv w (py "GOOGLE_API_KEY") = Some [] ->
  exit_status (fst (main w args st)) = 1%Z
  /\ exists new,
       log (snd (main w args st)) = new ++ log st /\ Forall harmless new.
Proof.
  intros Hkey.
  assert (Hfinal : forall diff st1, exists msg,
            final_message w args diff st1
            = (SysExit 1%Z, logged (Stderr msg) (files st1) st1)).
  { intros diff st1. unfold final_message.
    destruct (negb (truthy (strip diff))); [eexists; reflexivity|].
    destruct (cap (MAX_DIFF_CHARS w) (strip_sensitive_lines diff))
      as [d truncated].
    unfold bind at 1. unfold ensure_gemini_key.
    destruct Hkey as [-> | ->]; eexists; reflexivity. }
  destruct (retrieve_diff_harmless w args st) as [new [Hlog Hall]].
  pose proof (retrieve_diff_exits args st) as Hexit.
  rewrite main_eq.
  destruct (retrieve_diff w args st) as [[diff | e | code] st1];
    cbn [fst snd] in Hlog |- *.
  - destruct (Hfinal diff st1) as [msg ->].
    cbn [fst snd exit_status logged log]. split; [reflexivity|].
    exists (Stderr msg :: new). rewrite Hlog. split; [reflexivity|].
    constructor; [split; reflexivity|exact Hall].
  - split; [reflexivity|]. exists new. split; assumption.
  - split; [exact (Hexit _ _ eq_refl)|]. exists new. split; assumption.
Qed.

(** X14.  With a diff that is not blank and a key, any exception out of
    [call_gemini], of whatever class (the library's, a blocked or an empty
    response), ends the run: one line on the error stream that carries the
    text of the exception, then status 1; no message is printed, no editor
    started, nothing committed. *)
Theorem model_failure_exits_1
    (args : Args) (diff : str) (c : char) (key : str) (e : exn)
    (st st' : state) :
  truthy (strip diff) = true ->
  getenv w (py "GOOGLE_API_KEY") = Some (c :: key) ->
  call_gemini w (model args)
    (PROMPT_TEMPLATE_format (lang args) (ctype args)
       (fst (cap (MAX_DIFF_CHARS w) (strip_sensitive_lines diff)))) st
  = (Raise e, st') ->
  final_message w args diff st
  = (SysExit 1%Z,
     logged (Stderr (py " Erro chamando Gemini: " ++ exn_str e))
       (files st') st').
Proof.
  intros Hdiff Hkey Hcall. unfold final_message.
  rewrite Hdiff. cbn [negb].
  destruct (cap (MAX_DIFF_CHARS w) (strip_sensitive_lines diff))
    as [d truncated].
  cbn [fst] in Hcall.
  rewrite (bind_Ret _ _ _ _ _ (ensure_gemini_key_set c key st Hkey)).
  apply bind_SysExit. unfold try_except. rewrite Hcall. reflexivity.
Qed.

(** X15.  What [call_gemini] returns is stripped, and besides the one call
    of the model the function does nothing. *)
Theorem call_gemini_returns_trimmed
    (model_name prompt text : str) (st st' : state) :
  call_gemini w model_name prompt st = (Ret text, st') ->
  strip text = text
  /\ st' = logged (Generate model_name prompt) (files st) st.
Proof.
  unfold call_gemini, bind, emit, raise, ret.
  destruct (getenv w (py "GOOGLE_API_KEY")) as [key|]; [|discriminate].
  destruct (generate_content w key model_name prompt) as [e|resp];
    [discriminate|].
  destruct (candidates resp) as [[|cand cands]|]; try discriminate.
  destruct (truthy _); [|discriminate].
  intros Heq. inversion Heq; subst. split; [|reflexivity].
  apply strip_by_idem.
Qed.

End RunsEnd.

Section RunsLast.
Context `{Unicode}.
Variable w : World.

Lemma split_ws_blank (s : str) :
  forallb isspace s = true -> split_ws [] s = [].
Proof.
  induction s as [|c s IH]; [reflexivity|].
  simpl. intros Hs. apply andb_true_iff in Hs. destruct Hs as [-> Hs].
  apply IH. exact Hs.
Qed.

(** X16.  [EDITOR] comes before [VISUAL], which is asked only when
    [EDITOR] is unset or empty.  With an editor set, [editor_edit] does
    three things in this order whatever happens in between: it writes the
    text to the temporary file, starts the editor with the file's name as
    the last argument, and tries to remove the file.  A setting made of
    white space only counts as set and leaves a command that is the file's
    name alone. *)
Theorem editor_edit_steps (initial_text : str) (st : state) :
  (forall c editor,
     getenv w (py "EDITOR") = Some (c :: editor) ->
     editor_setting w = Some (c :: editor))
  /\ (getenv w (py "EDITOR") = None \/ getenv w (py "EDITOR") = Some [] ->
      editor_setting w = getenv w (py "VISUAL"))
  /\ (forall c editor,
        editor_setting w = Some (c :: editor) ->
        log (snd (editor_edit w initial_text st))
        = [Remove (mktemp w (files st));
           Editor (split (c :: editor) ++ [mktemp w (files st)]);
           TempFile (mktemp w (files st)) initial_text] ++ log st)
  /\ (forall c editor,
        editor_setting w = Some (c :: editor) ->
        forallb isspace (c :: editor) = true ->
        In (Editor [mktemp w (files st)])
          (log (snd (editor_edit w initial_text st)))).
Proof.
  assert (Hlog : forall c editor,
            editor_setting w = Some (c :: editor) ->
            log (snd (editor_edit w initial_text st))
            = [Remove (mktemp w (files st));
               Editor (split (c :: editor) ++ [mktemp w (files st)]);
               TempFile (mktemp w (files st)) initial_text] ++ log st).
  { intros c editor Hed. unfold editor_edit. rewrite Hed.
    unfold try_finally, try_except, os_remove, bind, emit, get_files,
      put_files, raise, ret.
    cbn [files log fst snd].
    destruct (subprocess_run w (environ w) _ _) as [p after | what].
    - cbn [files log].
      destruct (after !! mktemp w (files st)) as [contents|] eqn:Hfile;
        cbn [files log]; rewrite Hfile; [|reflexivity].
      destruct (remove_error w (mktemp w (files st))); reflexivity.
    - cbn [files log]. rewrite lookup_insert_eq.
      destruct (remove_error w (mktemp w (files st))); reflexivity. }
  split; [|split; [|split]].
  - intros c editor He. unfold editor_setting. rewrite He. reflexivity.
  - intros [He | He]; unfold editor_setting; rewrite He; reflexivity.
  - exact Hlog.
  - intros c editor Hed Hblank. rewrite (Hlog c editor Hed).
    unfold split. rewrite (split_ws_blank _ Hblank).
    right. left. reflexivity.
Qed.

(** X17.  The delivery without [--print-only]: [git commit -m] gets the
    final message as one argument.  When the commit ends with status 0 the
    script prints its confirmation and returns; when it ends with another
    status the script writes its hint and git's error text to the error
    stream and leaves with status 1; when git cannot be started the
    [OSError] is not caught. *)
Theorem deliver_commit_outcomes (args : Args) (final_msg : str) (st : state) :
  print_only args = false ->
  (forall p f',
     subprocess_run w (run_env (environ w)) (commit_command final_msg)
       (files st) = Spawned p f' ->
     returncode p = 0%Z ->
     deliver w args final_msg st
     = (Ret tt,
        logged (Stdout (py " Commit feito: " ++ final_msg)) f'
          (logged (Subprocess (commit_command final_msg)) f' st)))
  /\ (forall p f',
        subprocess_run w (run_env (environ w)) (commit_command final_msg)
          (files st) = Spawned p f' ->
        returncode p <> 0%Z ->
        deliver w args final_msg st
        = (SysExit 1%Z,
           logged (Stderr (stderr p)) f'
             (logged (Stderr (utf8 "Falha ao commitar. Faça git add.")) f'
                (logged (Subprocess (commit_command final_msg)) f' st))))
  /\ (forall what,
        subprocess_run w (run_env (environ w)) (commit_command final_msg)
          (files st) = SpawnFailed what ->
        deliver w args final_msg st
        = (Raise (OSError what),
           logged (Subprocess (commit_command final_msg)) (files st) st)).
Proof.
  intros Hp.
  assert (Heq : deliver w args final_msg st
                = match run w (commit_command final_msg) true st with
                  | (Ret _, st') =>
                      (Ret tt,
                       logged (Stdout (py " Commit feito: " ++ final_msg))
                         (files st') st')
                  | (Raise (CalledProcessError _ err), st') =>
                      (SysExit 1%Z,
                       logged (Stderr err) (files st')
                         (logged
                            (Stderr (utf8 "Falha ao commitar. Faça git add."))
                            (files st') st'))
                  | (Raise e, st') => (Raise e, st')
                  | (SysExit c, st') => (SysExit c, st')
                  end).
  { unfold deliver. rewrite Hp. unfold try_except, bind.
    destruct (run w (commit_command final_msg) true st)
      as [[out | [] | c] st']; reflexivity. }
  rewrite Heq, run_eq. repeat apply conj.
  - intros p f' -> ->. reflexivity.
  - intros p f' -> Hcode. cbn [andb].
    destruct (Z.eqb_spec (returncode p) 0); [contradiction|reflexivity].
  - intros what ->. reflexivity.
Qed.

(** What a commit, if one is started, looks like. *)
Definition commit_event (e : event) : Prop :=
  is_commit e = true ->
  exists m, e = Subprocess (commit_command m) /\ fit_message m.

(** X18.  In every run and every world, a [git commit] that the script
    starts has the form [git commit -m message] with a message that is not
    empty, holds no line boundary and has no white space at either end. *)
Theorem commit_message_always_fit (args : Args) :
  emits_only commit_event (main w args).
Proof.
  assert (Hquiet : forall e, no_commit e -> commit_event e).
  { intros e He Hc. unfold no_commit in He. congruence. }
  unfold main. apply emits_only_bind.
  - eapply emits_only_weaken; [|apply retrieve_diff_harmless].
    intros e [_ He]. apply Hquiet. exact He.
  - intros diff.
    apply (emits_only_bind_returns _ fit_message).
    + eapply emits_only_weaken; [exact Hquiet|].
      apply final_message_no_commit.
    + apply final_message_fit.
    + intros final_msg Hfit. unfold deliver.
      destruct (print_only args).
      * apply emits_only_emit. apply Hquiet. reflexivity.
      * emits; try (apply Hquiet; reflexivity).
        apply run_emits_event. intros _. exists final_msg.
        split; [reflexivity|exact Hfit].
Qed.

(** On parsed values [main] ends with status 0 or with status 1, never
    another. *)
Lemma main_parsed_exit_status (args : Args) (st : state) :
  exit_status (fst (main w args st)) = 0%Z
  \/ exit_status (fst (main w args st)) = 1%Z.
Proof.
  pose proof (main_exits w args st) as Hexit.
  destruct (main w args st) as [[[] | e | code] st']; cbn [fst exit_status].
  - left. reflexivity.
  - right. reflexivity.
  - right. exact (Hexit _ _ eq_refl).
Qed.

(** [main] on parsed values, ending with status 0, retrieved a diff that
    is not blank, reached a final message fit for a commit, and then
    either, with [--print-only], printed exactly that message, or started
    [git commit -m] with it, saw it end with status 0 and printed the
    confirmation. *)
Lemma main_parsed_success (args : Args) (st : state) :
  exit_status (fst (main w args st)) = 0%Z ->
  exists diff st1 final_msg st2,
    retrieve_diff w args st = (Ret diff, st1)
    /\ truthy (strip diff) = true
    /\ final_message w args diff st1 = (Ret final_msg, st2)
    /\ fit_message final_msg
    /\ ((print_only args = true
         /\ log (snd (main w args st)) = Stdout final_msg :: log st2)
        \/ (print_only args = false
            /\ (exists p f',
                  subprocess_run w (run_env (environ w))
                    (commit_command final_msg) (files st2) = Spawned p f'
                  /\ returncode p = 0%Z)
            /\ log (snd (main w args st))
               = Stdout (py " Commit feito: " ++ final_msg)
                 :: Subprocess (commit_command final_msg) :: log st2)).
Proof.
  pose proof (main_exits w args st) as Hexit. rewrite main_eq in *.
  destruct (retrieve_diff w args st) as [[diff | e | code] st1] eqn:Hdiff;
    cbn [fst exit_status]; try discriminate.
  2: { intros Hc. specialize (Hexit _ _ eq_refl). lia. }
  pose proof (final_message_fit w args diff) as Hfit.
  destruct (final_message w args diff st1)
    as [[final_msg | e | code] st2] eqn:Hmsg;
    cbn [fst exit_status]; try discriminate.
  2: { intros Hc. specialize (Hexit _ _ eq_refl). lia. }
  intros Hzero. exists diff, st1, final_msg, st2.
  split; [reflexivity|]. split.
  { destruct (truthy (strip diff)) eqn:Hblank; [reflexivity|].
    unfold final_message in Hmsg. rewrite Hblank in Hmsg.
    discriminate Hmsg. }
  split; [exact Hmsg|]. split; [exact (Hfit _ _ _ Hmsg)|].
  unfold deliver in *. destruct (print_only args).
  - left. split; reflexivity.
  - right. split; [reflexivity|].
    unfold try_except, bind in *. rewrite run_eq in *.
    destruct (subprocess_run w (run_env (environ w))
                (commit_command final_msg) (files st2)) as [p f'|what];
      [|discriminate Hzero].
    cbn [andb] in *.
    destruct (Z.eqb_spec (returncode p) 0) as [Hrc|Hrc].
    + split; [|reflexivity]. exists p, f'. split; [reflexivity|exact Hrc].
    + cbn [negb is_CalledProcessError fst exit_status] in Hzero.
      discriminate Hzero.
Qed.

End RunsLast.

(** ** The whole of main, from the command line on *)

Section WholeRuns.
Context `{Unicode}.
Variable w : World.

(** The three ways a run goes on after [parser.parse_args()]. *)
Lemma main_from_command_line_eq (st : state) :
  main_from_command_line w st
  = match parse_args w with
    | Parsed args => main w args st
    | Help text => (SysExit 0%Z, logged (Stdout text) (files st) st)
    | Rejected usage message =>
        (SysExit 2%Z,
         logged (Stderr message) (files st)
           (logged (Stderr usage) (files st) st))
    end.
Proof.
  unfold main_from_command_line, parse_command_line.
  destruct (parse_args w); reflexivity.
Qed.

(** X13.  Without a key ([GOOGLE_API_KEY] unset or empty) no run, whatever
    its command line, calls the model or starts a commit.  A run whose
    command line is accepted ends with status 1; one asked for help only
    prints the help and ends with status 0; one whose command line is
    rejected ends with status 2. *)
Theorem missing_key_stops_before_model (st : state) :
  getenv w (py "GOOGLE_API_KEY") = None
  \/ getenv w (py "GOOGLE_API_KEY") = Some [] ->
  (exists new,
     log (snd (main_from_command_line w st)) = new ++ log st
     /\ Forall harmless new)
  /\ (forall args,
        parse_args w = Parsed args ->
        exit_status (fst (main_from_command_line w st)) = 1%Z)
  /\ (forall text,
        parse_args w = Help text ->
        main_from_command_line w st
        = (SysExit 0%Z, logged (Stdout text) (files st) st))
  /\ (forall usage message,
        parse_args w = Rejected usage message ->
        exit_status (fst (main_from_command_line w st)) = 2%Z).
Proof.
  intros Hkey. rewrite main_from_command_line_eq.
  destruct (parse_args w) as [args | text | usage message].
  - destruct (main_missing_key w args st Hkey) as [Hstatus Hlog].
    split; [exact Hlog|]. split; [|split]; try discriminate.
    intros args' _. exact Hstatus.
  - split; [|split; [|split]]; try discriminate.
    + exists [Stdout text]. split; [reflexivity|].
      repeat constructor.
    + intros text' Heq. injection Heq as <-. reflexivity.
  - split; [|split; [|split]]; try discriminate.
    + exists [Stderr message; Stderr usage]. split; [reflexivity|].
      repeat constructor.
    + intros usage' message' _. reflexivity.
Qed.

(** X19.  A run ends with status 0, 1 or 2, never another: with 2 exactly
    when the command line is rejected, with 0 when help is asked for, and
    with 0 or 1 when the command line is accepted. *)
Theorem main_exit_status (st : state) :
  (exit_status (fst (main_from_command_line w st)) = 0%Z
   \/ exit_status (fst (main_from_command_line w st)) = 1%Z
   \/ exit_status (fst (main_from_command_line w st)) = 2%Z)
  /\ (exit_status (fst (main_from_command_line w st)) = 2%Z
      <-> exists usage message, parse_args w = Rejected usage message)
  /\ (forall text,
        parse_args w = Help text ->
        exit_status (fst (main_from_command_line w st)) = 0%Z)
  /\ (forall args,
        parse_args w = Parsed args ->
        exit_status (fst (main_from_command_line w st)) = 0%Z
        \/ exit_status (fst (main_from_command_line w st)) = 1%Z).
Proof.
  rewrite main_from_command_line_eq.
  destruct (parse_args w) as [args | text | usage message].
  - pose proof (main_parsed_exit_status w args st) as Hstatus.
    split; [tauto|]. split; [|split; [discriminate|]].
    + split.
      * intros H2. rewrite H2 in Hstatus.
        destruct Hstatus; discriminate.
      * intros (usage & message & Heq). discriminate Heq.
    + intros args' _. exact Hstatus.
  - cbn [fst exit_status]. split; [left; reflexivity|].
    split; [|split; [reflexivity|discriminate]].
    split; [discriminate|]. intros (usage & message & Heq).
    discriminate Heq.
  - cbn [fst exit_status]. split; [right; right; reflexivity|].
    split; [|split; discriminate].
    split; [|reflexivity]. intros _. exists usage, message. reflexivity.
Qed.

(** X20.  A run that ends with status 0 either was asked for help and
    only printed the help; or its command line was accepted, it retrieved
    a diff that is not blank, reached a final message fit for a commit,
    and then either, with [--print-only], printed exactly that message, or
    started [git commit -m] with it, saw it end with status 0 and printed
    the confirmation. *)
Theorem success_means_printed_or_committed (st : state) :
  exit_status (fst (main_from_command_line w st)) = 0%Z ->
  (exists text,
     parse_args w = Help text
     /\ main_from_command_line w st
        = (SysExit 0%Z, logged (Stdout text) (files st) st))
  \/ (exists args diff st1 final_msg st2,
        parse_args w = Parsed args
        /\ retrieve_diff w args st = (Ret diff, st1)
        /\ truthy (strip diff) = true
        /\ final_message w args diff st1 = (Ret final_msg, st2)
        /\ fit_message final_msg
        /\ ((print_only args = true
             /\ log (snd (main_from_command_line w st))
                = Stdout final_msg :: log st2)
            \/ (print_only args = false
                /\ (exists p f',
                      subprocess_run w (run_env (environ w))
                        (commit_command final_msg) (files st2)
                      = Spawned p f'
                      /\ returncode p = 0%Z)
                /\ log (snd (main_from_command_line w st))
                   = Stdout (py " Commit feito: " ++ final_msg)
                     :: Subprocess (commit_command final_msg) :: log st2))).
Proof.
  rewrite main_from_command_line_eq.
  destruct (parse_args w) as [args | text | usage message].
  - intros Hzero. right.
    destruct (main_parsed_success w args st Hzero)
      as (diff & st1 & final_msg & st2 & Hrest).
    exists args, diff, st1, final_msg, st2. split; [reflexivity|exact Hrest].
  - intros _. left. exists text. split; reflexivity.
  - cbn [fst exit_status]. discriminate.
Qed.

End WholeRuns.

(** ** Further runs on concrete worlds *)

(** Outside a repository: git ends every command with status 128. *)
Definition outside_repo_world : World := {|
  environ := with_key;
  MAX_DIFF_CHARS := 40000;
  parse_args := Parsed (flags false false false);
  subprocess_run := fun _ _ f =>
    Spawned {| returncode := 128; stdout := [];
               stderr := py "fatal: not a git repository" |} f;
  called_process_msg := fun _ _ => py "Command returned non-zero exit status";
  Path := posix_path;
  chdir_error := fun _ => None;
  generate_content := fun _ _ _ => inr (text_response (py "fix: x"));
  mktemp := fun _ => py "/tmp/tmpab12.tmp";
  remove_error := fun _ => None
|}.

Definition git_fatal : CompletedProcess :=
  {| returncode := 128; stdout := [];
     stderr := py "fatal: not a git repository" |}.

Lemma run_outcomes_witness :
  environ editing_world !! py "EDITOR" = Some (py "vi")
  /\ In (py "LANG") [py "GIT_PAGER"; py "LANG"; py "LC_ALL"]
  /\ run_env (environ editing_world) !! py "EDITOR" = Some (py "vi")
  /\ is_Some (run_env (environ editing_world) !! py "LANG")
  /\ run outside_repo_world rev_parse true (start ∅)
     = (Raise (CalledProcessError
                 (py "Command returned non-zero exit status")
                 (py "fatal: not a git repository")),
        logged (Subprocess rev_parse) ∅ (start ∅))
  /\ run outside_repo_world rev_parse false (start ∅)
     = (Ret git_fatal, logged (Subprocess rev_parse) ∅ (start ∅)).
Proof.
  assert (He : environ editing_world !! py "EDITOR" = Some (py "vi"))
    by (vm_compute; reflexivity).
  assert (Hin : In (py "LANG") [py "GIT_PAGER"; py "LANG"; py "LC_ALL"])
    by (right; left; reflexivity).
  do 2 (split; [assumption|]).
  split; [exact (proj1 (run_outcomes editing_world [] true (start ∅))
                   _ _ He)|].
  split; [exact (proj1 (proj2 (run_outcomes editing_world [] true (start ∅)))
                   _ Hin)|].
  split.
  - refine (proj1 (proj2 (proj2 (proj2
              (run_outcomes outside_repo_world rev_parse true (start ∅)))))
              git_fatal ∅ eq_refl eq_refl _).
    discriminate.
  - refine (proj2 (proj2 (proj2 (proj2
              (run_outcomes outside_repo_world rev_parse false (start ∅)))))
              git_fatal ∅ eq_refl _).
    left. reflexivity.
Defined.

Lemma get_repo_root_outcomes_witness :
  returncode git_fatal <> 0%Z
  /\ returncode (completed 0 (py "/repo" ++ [10])) = 0%Z
  /\ get_repo_root outside_repo_world (start ∅)
     = (SysExit 1%Z,
        logged (Stderr (utf8 " Não é um repositório git.")) ∅
          (logged (Subprocess rev_parse) ∅ (start ∅)))
  /\ get_repo_root editing_world (start ∅)
     = (Ret (py "/repo"), logged (Subprocess rev_parse) ∅ (start ∅)).
Proof.
  assert (Hbad : returncode git_fatal <> 0%Z) by discriminate.
  assert (Hok : returncode (completed 0 (py "/repo" ++ [10])) = 0%Z)
    by reflexivity.
  do 2 (split; [assumption|]). split.
  - exact (proj1 (get_repo_root_outcomes outside_repo_world (start ∅))
             git_fatal ∅ eq_refl Hbad).
  - exact (proj1 (proj2 (get_repo_root_outcomes editing_world (start ∅)))
             (completed 0 (py "/repo" ++ [10])) ∅ eq_refl Hok).
Defined.

Lemma get_diff_outcomes_witness :
  returncode git_fatal <> 0%Z
  /\ returncode (completed 0 (py "+a = 1" ++ [10])) = 0%Z
  /\ get_diff outside_repo_world true (start ∅)
     = (SysExit 1%Z,
        logged (Stderr (py "fatal: not a git repository")) ∅
          (logged (Subprocess (diff_command true)) ∅ (start ∅)))
  /\ get_diff editing_world false (start ∅)
     = (Ret (py "+a = 1" ++ [10]),
        logged (Subprocess (diff_command false)) ∅ (start ∅)).
Proof.
  assert (Hbad : returncode git_fatal <> 0%Z) by discriminate.
  assert (Hok : returncode (completed 0 (py "+a = 1" ++ [10])) = 0%Z)
    by reflexivity.
  do 2 (split; [assumption|]). split.
  - exact (proj1 (proj2 (get_diff_outcomes outside_repo_world true (start ∅)))
             git_fatal ∅ eq_refl Hbad).
  - exact (proj1 (proj2 (proj2
             (get_diff_outcomes editing_world false (start ∅))))
             (completed 0 (py "+a = 1" ++ [10])) ∅ eq_refl Hok).
Defined.

Lemma retrieve_diff_commands_witness :
  unstaged (flags true true false) = true
  /\ emits_only
       (fun e => forall argv,
                   e = Subprocess argv -> ~ In (py "--staged") argv)
       (retrieve_diff editing_world (flags true true false)).
Proof.
  assert (Hu : unstaged (flags true true false) = true) by reflexivity.
  split; [exact Hu|].
  exact (proj2 (retrieve_diff_commands editing_world (flags true true false))
           Hu).
Defined.

(** No key in the environment. *)
Definition keyless_world : World :=
  scripted_world ∅ (py "a.py" ++ [10]) (py "+a = 1" ++ [10])
    (inr (text_response (py "fix: x"))) None.

(** The same world on another command line. *)
Definition on_command_line (cl : parsed) (w : World) : World := {|
  environ := environ w;
  MAX_DIFF_CHARS := MAX_DIFF_CHARS w;
  parse_args := cl;
  subprocess_run := subprocess_run w;
  called_process_msg := called_process_msg w;
  Path := Path w;
  chdir_error := chdir_error w;
  generate_content := generate_content w;
  mktemp := mktemp w;
  remove_error := remove_error w
|}.

(** The three outcomes of the command line, without a key. *)
Example command_line_outcomes :
  exit_status
    (fst (@main_from_command_line AsciiOnly
            (on_command_line (Help (py "usage: ai_commit.py [-h]"))
               keyless_world) (start ∅))) = 0%Z
  /\ @main_from_command_line AsciiOnly
       (on_command_line
          (Rejected (py "usage: ai_commit.py [-h]")
             (py "ai_commit.py: error: unrecognized arguments: --bogus"))
          keyless_world) (start ∅)
     = (SysExit 2%Z,
        {| files := ∅;
           log := [Stderr
                     (py "ai_commit.py: error: unrecognized arguments: --bogus");
                   Stderr (py "usage: ai_commit.py [-h]")] |})
  /\ exit_status
       (fst (@main_from_command_line AsciiOnly keyless_world (start ∅)))
     = 1%Z.
Proof. vm_compute. repeat split. Qed.

Lemma missing_key_stops_before_model_witness :
  getenv keyless_world (py "GOOGLE_API_KEY") = None
  /\ parse_args keyless_world = Parsed (flags false false false)
  /\ exit_status
       (fst (@main_from_command_line AsciiOnly keyless_world (start ∅)))
     = 1%Z
  /\ exists new,
       log (snd (@main_from_command_line AsciiOnly keyless_world (start ∅)))
       = new ++ [] /\ Forall harmless new.
Proof.
  assert (Hkey : getenv keyless_world (py "GOOGLE_API_KEY") = None)
    by (vm_compute; reflexivity).
  split; [exact Hkey|]. split; [reflexivity|].
  destruct (@missing_key_stops_before_model AsciiOnly keyless_world
              (start ∅) (or_introl Hkey)) as (Hlog & Hstatus & _).
  split; [exact (Hstatus _ eq_refl)|exact Hlog].
Defined.

(** The library fails. *)
Definition failing_model_world : World :=
  scripted_world with_key (py "a.py" ++ [10]) (py "+a = 1" ++ [10])
    (inl (OtherException (py "503 unavailable"))) None.

Lemma model_failure_exits_1_witness :
  truthy (strip (py "+a = 1" ++ [10])) = true
  /\ getenv failing_model_world (py "GOOGLE_API_KEY") = Some (py "k")
  /\ @final_message AsciiOnly failing_model_world (flags false true false)
       (py "+a = 1" ++ [10]) (start ∅)
     = (SysExit 1%Z,
        logged (Stderr (py " Erro chamando Gemini: " ++ py "503 unavailable"))
          ∅
          (logged
             (Generate (py "gemini-1.5-flash")
                (PROMPT_TEMPLATE_format (py "pt-BR") (py "chore")
                   (py "+a = 1")))
             ∅ (start ∅))).
Proof.
  assert (Hdiff : truthy (strip (py "+a = 1" ++ [10])) = true)
    by reflexivity.
  assert (Hkey : getenv failing_model_world (py "GOOGLE_API_KEY")
                 = Some (py "k")) by (vm_compute; reflexivity).
  do 2 (split; [assumption|]).
  refine (@model_failure_exits_1 AsciiOnly failing_model_world
            (flags false true false) (py "+a = 1" ++ [10]) 107 []
            (OtherException (py "503 unavailable")) (start ∅)
            (logged
               (Generate (py "gemini-1.5-flash")
                  (PROMPT_TEMPLATE_format (py "pt-BR") (py "chore")
                     (py "+a = 1")))
               ∅ (start ∅))
            Hdiff Hkey _).
  vm_compute. reflexivity.
Defined.

Lemma call_gemini_returns_trimmed_witness :
  call_gemini
    (scripted_world with_key [] [] (inr (text_response (py " fix: x  ")))
       None)
    (py "m") (py "p") (start ∅)
  = (Ret (py "fix: x"), logged (Generate (py "m") (py "p")) ∅ (start ∅))
  /\ strip (py "fix: x") = py "fix: x".
Proof.
  assert (Hcall :
    call_gemini
      (scripted_world with_key [] [] (inr (text_response (py " fix: x  ")))
         None)
      (py "m") (py "p") (start ∅)
    = (Ret (py "fix: x"), logged (Generate (py "m") (py "p")) ∅ (start ∅)))
    by (vm_compute; reflexivity).
  split; [exact Hcall|].
  exact (proj1 (call_gemini_returns_trimmed _ _ _ _ _ _ Hcall)).
Defined.

(** An editor setting of two spaces. *)
Definition blank_editor_world : World :=
  scripted_world (<[ py "EDITOR" := py "  " ]> with_key) [] []
    (inr (text_response (py "fix: x"))) None.

Lemma editor_edit_steps_witness :
  getenv blank_editor_world (py "EDITOR") = Some (py "  ")
  /\ editor_setting blank_editor_world = Some (py "  ")
  /\ forallb isspace (py "  ") = true
  /\ In (Editor [tmp_path])
        (log (snd (editor_edit blank_editor_world (py "draft") (start ∅))))
  /\ log (snd (editor_edit blank_editor_world (py "draft") (start ∅)))
     = [Remove tmp_path; Editor (split (py "  ") ++ [tmp_path]);
        TempFile tmp_path (py "draft")] ++ [].
Proof.
  assert (He : getenv blank_editor_world (py "EDITOR") = Some (py "  "))
    by (vm_compute; reflexivity).
  assert (Hblank : forallb isspace (py "  ") = true) by reflexivity.
  destruct (editor_edit_steps blank_editor_world (py "draft") (start ∅))
    as (H1 & _ & H3 & H4).
  pose proof (H1 32 [32] He) as Hed.
  split; [exact He|]. split; [exact Hed|]. split; [exact Hblank|].
  split; [exact (H4 32 [32] Hed Hblank)|exact (H3 32 [32] Hed)].
Defined.

Lemma deliver_commit_outcomes_witness :
  print_only (flags false true false) = false
  /\ returncode (completed 0 []) = 0%Z
  /\ returncode git_fatal <> 0%Z
  /\ deliver editing_world (flags false true false) (py "fix: x") (start ∅)
     = (Ret tt,
        logged (Stdout (py " Commit feito: " ++ py "fix: x")) ∅
          (logged (Subprocess (commit_command (py "fix: x"))) ∅ (start ∅)))
  /\ fst (deliver outside_repo_world (flags false true false) (py "fix: x")
            (start ∅))
     = SysExit 1%Z.
Proof.
  assert (Hp : print_only (flags false true false) = false) by reflexivity.
  assert (Hok : returncode (completed 0 []) = 0%Z) by reflexivity.
  assert (Hbad : returncode git_fatal <> 0%Z) by discriminate.
  do 3 (split; [assumption|]). split.
  - exact (proj1 (deliver_commit_outcomes editing_world
                    (flags false true false) (py "fix: x") (start ∅) Hp)
             (completed 0 []) ∅ eq_refl Hok).
  - rewrite (proj1 (proj2 (deliver_commit_outcomes outside_repo_world
                     (flags false true false) (py "fix: x") (start ∅) Hp))
               git_fatal ∅ eq_refl Hbad).
    reflexivity.
Defined.

(** The run of [ai_commit.py --no-edit] where a file is staged. *)
Definition committing_world : World :=
  on_command_line (Parsed (flags false true false)) editing_world.

Lemma success_means_printed_or_committed_witness :
  exit_status
    (fst (@main_from_command_line AsciiOnly committing_world (start ∅)))
  = 0%Z
  /\ ((exists text,
         parse_args committing_world = Help text
         /\ @main_from_command_line AsciiOnly committing_world (start ∅)
            = (SysExit 0%Z, logged (Stdout text) (files (start ∅)) (start ∅)))
      \/ (exists args diff st1 final_msg st2,
            parse_args committing_world = Parsed args
            /\ retrieve_diff committing_world args (start ∅) = (Ret diff, st1)
            /\ truthy (strip diff) = true
            /\ @final_message AsciiOnly committing_world args diff st1
               = (Ret final_msg, st2)
            /\ fit_message final_msg
            /\ ((print_only args = true
                 /\ log (snd (@main_from_command_line AsciiOnly
                                committing_world (start ∅)))
                    = Stdout final_msg :: log st2)
                \/ (print_only args = false
                    /\ (exists p f',
                          subprocess_run committing_world
                            (run_env (environ committing_world))
                            (commit_command final_msg) (files st2)
                          = Spawned p f'
                          /\ returncode p = 0%Z)
                    /\ log (snd (@main_from_command_line AsciiOnly
                                   committing_world (start ∅)))
                       = Stdout (py " Commit feito: " ++ final_msg)
                         :: Subprocess (commit_command final_msg)
                         :: log st2)))).
Proof.
  assert (Hzero : exit_status
                    (fst (@main_from_command_line AsciiOnly
                            committing_world (start ∅))) = 0%Z)
    by (vm_compute; reflexivity).
  split; [exact Hzero|].
  exact (@success_means_printed_or_committed AsciiOnly committing_world
           (start ∅) Hzero).
Defined.
